(** * Wake Analyzer: plan validation and execution engine

    A shallow embedding of [PlanValidator] (app/services/plan_validator.py)
    and [ExecutionEngine] (app/execution_engine.py), with the properties of
    the written specification stated against it.

    Python values are embedded as a small JSON-shaped universe, exceptions
    as an error monad, instance attributes as an explicit engine state, and
    the third-party numeric libraries (pandas, NumPy, scikit-learn,
    statsmodels, matplotlib) as an interface the engine is parameterised
    over. *)

From Stdlib Require Import Floats.PrimFloat Floats.SpecFloat Floats.FloatOps.
From Stdlib Require Import ZArith String Ascii List Bool Arith Lia.
From Stdlib Require Import Sorting.Permutation Sorting.Sorted.
Import ListNotations.

Local Open Scope string_scope.
Local Open Scope list_scope.

Set Warnings "-register-all".

(* ===================================================================== *)
(** * Python values and exceptions *)
(* ===================================================================== *)

(** The values a decoded JSON document can hold.  A [dict] keeps its
    bindings in insertion order; a lookup returns the first binding of the
    key. *)
Inductive pyval : Type :=
| PNone
| PBool (b : bool)
| PInt (z : Z)
| PFloat (f : float)
| PStr (s : string)
| PList (l : list pyval)
| PDict (d : list (string * pyval)).

(** The exceptions the modelled code can meet.  A [ValueError] raised by
    the engine keeps its f-string template and the values that fill it. *)
Inductive exn : Type :=
| TypeError
| AttributeError
| KeyError (key : pyval)
| IndexError
| OverflowError
| ValueError (template : string) (holes : list pyval)
| LibraryError (what : string).

Inductive result (A : Type) : Type :=
| Ok (a : A)
| Raise (e : exn).
Arguments Ok {A} a.
Arguments Raise {A} e.

Definition bind {A B : Type} (m : result A) (k : A -> result B) : result B :=
  match m with
  | Ok a => k a
  | Raise e => Raise e
  end.

Declare Scope py_scope.
Delimit Scope py_scope with py.
Notation "x <- m ;; k" := (bind m (fun x => k))
  (at level 61, m at next level, right associativity) : py_scope.
Local Open Scope py_scope.

(** [try: body  except Exception: handler]. *)
Definition try_except {A : Type} (body : result A) (handler : exn -> result A)
  : result A :=
  match body with
  | Ok a => Ok a
  | Raise e => handler e
  end.

(** ** Built-in operations *)

Fixpoint lookup (k : string) (d : list (string * pyval)) : option pyval :=
  match d with
  | [] => None
  | (k', v) :: d' => if String.eqb k k' then Some v else lookup k d'
  end.

(** [bool(v)]. *)
Definition truthy (v : pyval) : bool :=
  match v with
  | PNone => false
  | PBool b => b
  | PInt z => negb (Z.eqb z 0)
  | PFloat f => negb (PrimFloat.eqb f 0%float)
  | PStr s => negb (String.eqb s "")
  | PList l => match l with [] => false | _ => true end
  | PDict d => match d with [] => false | _ => true end
  end.

(** [v == s] for a string literal [s]. *)
Definition eq_str (v : pyval) (s : string) : bool :=
  match v with
  | PStr t => String.eqb t s
  | _ => false
  end.

Fixpoint prefix_b (p s : string) : bool :=
  match p, s with
  | EmptyString, _ => true
  | String a p', String b s' => Ascii.eqb a b && prefix_b p' s'
  | String _ _, EmptyString => false
  end.

Fixpoint substring_b (p s : string) : bool :=
  prefix_b p s ||
  match s with
  | EmptyString => false
  | String _ s' => substring_b p s'
  end.

(** [key in container] for a string literal [key]: key membership on a
    dict, substring test on a str, element membership on a list, and a
    [TypeError] on anything that is not a container. *)
Definition contains (container : pyval) (key : string) : result bool :=
  match container with
  | PDict d => Ok (match lookup key d with Some _ => true | None => false end)
  | PStr s => Ok (substring_b key s)
  | PList l => Ok (existsb (fun v => eq_str v key) l)
  | _ => Raise TypeError
  end.

(** [container[key]] for a string literal [key]. *)
Definition getitem (container : pyval) (key : string) : result pyval :=
  match container with
  | PDict d =>
      match lookup key d with
      | Some v => Ok v
      | None => Raise (KeyError (PStr key))
      end
  | _ => Raise TypeError
  end.

(** [container.get(key)]: only a dict has the method. *)
Definition get (container : pyval) (key : string) : result pyval :=
  match container with
  | PDict d => Ok (match lookup key d with Some v => v | None => PNone end)
  | _ => Raise AttributeError
  end.

(** [container.get(key, default)]. *)
Definition get_default (container : pyval) (key : string) (default : pyval)
  : result pyval :=
  match container with
  | PDict d => Ok (match lookup key d with Some v => v | None => default end)
  | _ => Raise AttributeError
  end.

(** [hash(v)] succeeds on scalars and raises on lists and dicts. *)
Definition hashable (v : pyval) : bool :=
  match v with
  | PList _ | PDict _ => false
  | _ => true
  end.

(** [v in S] for a set literal [S] of strings, possibly with [None] in it.
    The value is hashed first, so an unhashable value raises. *)
Definition in_set (S : list (option string)) (v : pyval) : result bool :=
  match v with
  | PStr s => Ok (existsb (fun o => match o with
                                    | Some t => String.eqb s t
                                    | None => false
                                    end) S)
  | PNone => Ok (existsb (fun o => match o with
                                   | Some _ => false
                                   | None => true
                                   end) S)
  | PList _ | PDict _ => Raise TypeError
  | _ => Ok false
  end.

(** [v in L] for a list literal [L] of strings: compared with [==]. *)
Definition in_list (L : list string) (v : pyval) : bool :=
  existsb (fun t => eq_str v t) L.

Definition isinstance_dict (v : pyval) : bool :=
  match v with PDict _ => true | _ => false end.
Definition isinstance_str (v : pyval) : bool :=
  match v with PStr _ => true | _ => false end.

(* ===================================================================== *)
(** * Plan validator (plan_validator.py) *)
(* ===================================================================== *)

Module PlanValidator.

(** An error or warning message: the text of the source's string literal,
    with [{}] where the f-string interpolates, and the interpolated values.
    The joined listing of the valid set, whose order is that of a Python
    set iteration, is left as a hole without a value. *)
Record message : Type := Msg { template : string; holes : list pyval }.

Record verdict : Type := Verdict {
  valid : bool;
  errors : list message;
  warnings : list message
}.

Definition VALID_OPERATIONS : list (option string) :=
  [Some "mean"; Some "sum"; Some "count"; Some "min"; Some "max"; Some "std";
   Some "correlation"; Some "regression"; Some "forecast"].

Definition VALID_OPERATORS : list (option string) :=
  [Some "=="; Some "!="; Some ">"; Some "<"; Some ">="; Some "<="].

Definition VALID_CHART_TYPES : list (option string) :=
  [Some "line"; Some "bar"; Some "scatter"; Some "heatmap"; Some "box";
   Some "histogram"; None].

(** The two local lists of [validate_plan], threaded through the body. *)
Record lists : Type := Lists { errs : list message; warns : list message }.

Definition append_error (m : message) (st : lists) : lists :=
  Lists (errs st ++ [m]) (warns st).
Definition extend_errors (ms : list message) (st : lists) : lists :=
  Lists (errs st ++ ms) (warns st).
Definition append_warning (m : message) (st : lists) : lists :=
  Lists (errs st) (warns st ++ [m]).

Definition idx (i : nat) : pyval := PInt (Z.of_nat i).

(** [_validate_filter(filter_obj, index)]. *)
Definition _validate_filter (filter_obj : pyval) (index : nat)
  : result (list message) :=
  let errors : list message := [] in
  if negb (isinstance_dict filter_obj) then
    Ok (errors ++ [Msg "Filter at index {} must be an object" [idx index]])
  else
    (* Required filter fields *)
    has_column <- contains filter_obj "column" ;;
    errors <-
      (if negb has_column then
         Ok (errors ++ [Msg "Filter at index {} missing 'column'" [idx index]])
       else
         column <- getitem filter_obj "column" ;;
         if negb (isinstance_str column) then
           Ok (errors ++
               [Msg "Filter at index {} 'column' must be a string" [idx index]])
         else Ok errors) ;;
    has_operator <- contains filter_obj "operator" ;;
    errors <-
      (if negb has_operator then
         Ok (errors ++ [Msg "Filter at index {} missing 'operator'" [idx index]])
       else
         operator <- getitem filter_obj "operator" ;;
         known <- in_set VALID_OPERATORS operator ;;
         if negb known then
           Ok (errors ++
               [Msg "Filter at index {} has invalid operator '{}'. Must be one of: {}"
                    [idx index; operator]])
         else Ok errors) ;;
    has_value <- contains filter_obj "value" ;;
    errors <-
      (if negb has_value then
         Ok (errors ++ [Msg "Filter at index {} missing 'value'" [idx index]])
       else Ok errors) ;;
    Ok errors.

(** [for i, filter_obj in enumerate(filters): errors.extend(...)],
    counting from [i]. *)
Fixpoint validate_filters_from (i : nat) (filters : list pyval) (st : lists)
  : result lists :=
  match filters with
  | [] => Ok st
  | filter_obj :: rest =>
      filter_errors <- _validate_filter filter_obj i ;;
      validate_filters_from (S i) rest (extend_errors filter_errors st)
  end.

Definition all_str (l : list pyval) : bool := forallb isinstance_str l.

(** The body of [validate_plan], one definition per commented section of
    the source, each taking and returning the two local lists. *)

(** [# Check required fields] *)
Definition check_required_fields (plan : pyval) (st : lists) : result lists :=
  has_operation <- contains plan "operation" ;;
  if negb has_operation then
    Ok (append_error (Msg "Missing required field: 'operation'" []) st)
  else
    op <- getitem plan "operation" ;;
    known <- in_set VALID_OPERATIONS op ;;
    if negb known then
      Ok (append_error
            (Msg "Invalid operation '{}'. Must be one of: {}" [op]) st)
    else Ok st.

(** [# Validate filters structure] *)
Definition validate_filters_structure (plan : pyval) (st : lists)
  : result lists :=
  has_filters <- contains plan "filters" ;;
  if has_filters then
    filters <- getitem plan "filters" ;;
    match filters with
    | PList fs => validate_filters_from 0 fs st
    | _ => Ok (append_error (Msg "'filters' must be an array" []) st)
    end
  else Ok st.

(** [# Validate group_by] *)
Definition validate_group_by (plan : pyval) (st : lists) : result lists :=
  has_group_by <- contains plan "group_by" ;;
  if has_group_by then
    group_by <- getitem plan "group_by" ;;
    match group_by with
    | PList cols =>
        if negb (all_str cols) then
          Ok (append_error
                (Msg "All 'group_by' elements must be strings" []) st)
        else Ok st
    | _ => Ok (append_error (Msg "'group_by' must be an array" []) st)
    end
  else Ok st.

(** [# Validate chart_type] *)
Definition validate_chart_type (plan : pyval) (st : lists) : result lists :=
  has_chart_type <- contains plan "chart_type" ;;
  if has_chart_type then
    chart_type <- getitem plan "chart_type" ;;
    known <- in_set VALID_CHART_TYPES chart_type ;;
    if negb known then
      Ok (append_error
            (Msg "Invalid chart_type '{}'. Must be one of: {}" [chart_type]) st)
    else Ok st
  else Ok st.

(** [# Validate requires_clarification] *)
Definition validate_requires_clarification (plan : pyval) (st : lists)
  : result lists :=
  requires_clarification <- get plan "requires_clarification" ;;
  if truthy requires_clarification then
    clarification_question <- get plan "clarification_question" ;;
    if negb (truthy clarification_question) then
      Ok (append_error
            (Msg ("When requires_clarification is true, " ++
                  "clarification_question must be provided") []) st)
    else Ok st
  else Ok st.

(** [# Operation-specific validation]: the four [if operation ...]
    statements, which are not chained with [elif]. *)
Definition operation_specific_validation (plan : pyval) (st : lists)
  : result lists :=
  operation <- get plan "operation" ;;
  st <-
    (if in_list ["mean"; "sum"; "std"; "min"; "max"] operation then
       target_column <- get plan "target_column" ;;
       if negb (truthy target_column) then
         Ok (append_warning
               (Msg "Operation '{}' typically requires target_column"
                    [operation]) st)
       else Ok st
     else Ok st) ;;
  st <-
    (if eq_str operation "correlation" then
       x_axis <- get plan "x_axis" ;;
       y_axis <- get plan "y_axis" ;;
       if negb (truthy x_axis && truthy y_axis) then
         Ok (append_error
               (Msg "Operation 'correlation' requires both x_axis and y_axis" [])
               st)
       else Ok st
     else Ok st) ;;
  st <-
    (if eq_str operation "regression" then
       x_axis <- get plan "x_axis" ;;
       y_axis <- get plan "y_axis" ;;
       if negb (truthy x_axis && truthy y_axis) then
         Ok (append_error
               (Msg "Operation 'regression' requires both x_axis and y_axis" [])
               st)
       else Ok st
     else Ok st) ;;
  if eq_str operation "forecast" then
    time_column <- get plan "time_column" ;;
    st <-
      (if negb (truthy time_column) then
         Ok (append_error
               (Msg "Operation 'forecast' requires time_column" []) st)
       else Ok st) ;;
    target_column <- get plan "target_column" ;;
    if negb (truthy target_column) then
      Ok (append_error
            (Msg "Operation 'forecast' requires target_column" []) st)
    else Ok st
  else Ok st.

Definition no_errors (l : list message) : bool :=
  match l with [] => true | _ => false end.

(** [validate_plan(plan)]. *)
Definition validate_plan (plan : pyval) : result verdict :=
  let st := Lists [] [] in
  st <- check_required_fields plan st ;;
  st <- validate_filters_structure plan st ;;
  st <- validate_group_by plan st ;;
  st <- validate_chart_type plan st ;;
  st <- validate_requires_clarification plan st ;;
  st <- operation_specific_validation plan st ;;
  Ok (Verdict (no_errors (errs st)) (errs st) (warns st)).

End PlanValidator.

(* ===================================================================== *)
(** * The validation rules of the specification (section 4.1) *)
(* ===================================================================== *)

(** Each rule on its own, as a function from the plan's bindings to the
    errors it reports, written from the specification's numbered list.
    A value that cannot be a member of an enumerated set (a list or a
    dict) counts as outside it. *)
Module Rules.
Import PlanValidator.

Definition member (S : list (option string)) (v : pyval) : bool :=
  match in_set S v with
  | Ok b => b
  | Raise _ => false
  end.

(** Rule 1: [operation] present and in the enumerated set. *)
Definition rule_operation (d : list (string * pyval)) : list message :=
  match lookup "operation" d with
  | None => [Msg "Missing required field: 'operation'" []]
  | Some op =>
      if member VALID_OPERATIONS op then []
      else [Msg "Invalid operation '{}'. Must be one of: {}" [op]]
  end.

(** Rule 2, one filter: each missing or invalid piece is an error carrying
    the filter's index. *)
Definition rule_filter (i : nat) (f : pyval) : list message :=
  match f with
  | PDict fd =>
      (match lookup "column" fd with
       | None => [Msg "Filter at index {} missing 'column'" [idx i]]
       | Some (PStr _) => []
       | Some _ => [Msg "Filter at index {} 'column' must be a string" [idx i]]
       end) ++
      (match lookup "operator" fd with
       | None => [Msg "Filter at index {} missing 'operator'" [idx i]]
       | Some o =>
           if member VALID_OPERATORS o then []
           else [Msg "Filter at index {} has invalid operator '{}'. Must be one of: {}"
                     [idx i; o]]
       end) ++
      (match lookup "value" fd with
       | None => [Msg "Filter at index {} missing 'value'" [idx i]]
       | Some _ => []
       end)
  | _ => [Msg "Filter at index {} must be an object" [idx i]]
  end.

Fixpoint rule_filters_from (i : nat) (fs : list pyval) : list message :=
  match fs with
  | [] => []
  | f :: rest => rule_filter i f ++ rule_filters_from (S i) rest
  end.

(** Rule 2: [filters], if present, is a sequence of well-shaped filters. *)
Definition rule_filters (d : list (string * pyval)) : list message :=
  match lookup "filters" d with
  | None => []
  | Some (PList fs) => rule_filters_from 0 fs
  | Some _ => [Msg "'filters' must be an array" []]
  end.

(** Rule 3: [group_by], if present, is a sequence of strings. *)
Definition rule_group_by (d : list (string * pyval)) : list message :=
  match lookup "group_by" d with
  | None => []
  | Some (PList cols) =>
      if all_str cols then []
      else [Msg "All 'group_by' elements must be strings" []]
  | Some _ => [Msg "'group_by' must be an array" []]
  end.

(** Rule 4: [chart_type], if present, is in the enumerated set or null. *)
Definition rule_chart_type (d : list (string * pyval)) : list message :=
  match lookup "chart_type" d with
  | None => []
  | Some c =>
      if member VALID_CHART_TYPES c then []
      else [Msg "Invalid chart_type '{}'. Must be one of: {}" [c]]
  end.

Definition present (d : list (string * pyval)) (k : string) : bool :=
  match lookup k d with
  | Some v => truthy v
  | None => false
  end.

(** Rule 5: a clarification request carries its question. *)
Definition rule_clarification (d : list (string * pyval)) : list message :=
  if present d "requires_clarification"
     && negb (present d "clarification_question")
  then [Msg ("When requires_clarification is true, " ++
             "clarification_question must be provided") []]
  else [].

Definition operation_is (d : list (string * pyval)) (name : string) : bool :=
  match lookup "operation" d with
  | Some op => eq_str op name
  | None => false
  end.

(** Rule 6: the requirements of the operation at hand. *)
Definition rule_operation_specific (d : list (string * pyval))
  : list message :=
  (if operation_is d "correlation"
      && negb (present d "x_axis" && present d "y_axis")
   then [Msg "Operation 'correlation' requires both x_axis and y_axis" []]
   else []) ++
  (if operation_is d "regression"
      && negb (present d "x_axis" && present d "y_axis")
   then [Msg "Operation 'regression' requires both x_axis and y_axis" []]
   else []) ++
  (if operation_is d "forecast" && negb (present d "time_column")
   then [Msg "Operation 'forecast' requires time_column" []] else []) ++
  (if operation_is d "forecast" && negb (present d "target_column")
   then [Msg "Operation 'forecast' requires target_column" []] else []).

(** Rules 2 to 5: the structural checks that do not look at [operation]. *)
Definition structural_rules (d : list (string * pyval)) : list message :=
  rule_filters d ++ rule_group_by d ++ rule_chart_type d ++
  rule_clarification d.

Definition all_rules (d : list (string * pyval)) : list message :=
  rule_operation d ++ structural_rules d ++ rule_operation_specific d.

(** The advisory of rule 6 for the five simple aggregations. *)
Definition rule_warnings (d : list (string * pyval)) : list message :=
  match lookup "operation" d with
  | Some op =>
      if in_list ["mean"; "sum"; "std"; "min"; "max"] op
         && negb (present d "target_column")
      then [Msg "Operation '{}' typically requires target_column" [op]]
      else []
  | None => []
  end.

(** The operands of the validator's set-membership tests: [operation],
    [chart_type] and each filter's [operator], where present. *)
Definition filter_operator_hashable (f : pyval) : bool :=
  match f with
  | PDict fd =>
      match lookup "operator" fd with
      | Some o => hashable o
      | None => true
      end
  | _ => true
  end.

Definition hashable_operands (d : list (string * pyval)) : bool :=
  match lookup "operation" d with Some op => hashable op | None => true end
  && match lookup "filters" d with
     | Some (PList fs) => forallb filter_operator_hashable fs
     | _ => true
     end
  && match lookup "chart_type" d with Some c => hashable c | None => true end.

End Rules.

(* ===================================================================== *)
(** * Data frames *)
(* ===================================================================== *)

(** A column is a typed array: [int64], [float64], [bool], or [object]
    cells holding Python values (after [read_csv]: strings, and NaN where
    a value is missing). *)
Inductive Series : Type :=
| SInt64 (l : list Z)
| SFloat64 (l : list float)
| SBool (l : list bool)
| SObject (l : list pyval).

(** A frame: the row labels and the named columns, in order. *)
Record DataFrame : Type := mkFrame {
  index : list Z;
  data : list (string * Series)
}.

Definition series_len (s : Series) : nat :=
  match s with
  | SInt64 l => List.length l
  | SFloat64 l => List.length l
  | SBool l => List.length l
  | SObject l => List.length l
  end.

(** [str(dtype)]. *)
Definition dtype_name (s : Series) : string :=
  match s with
  | SInt64 _ => "int64"
  | SFloat64 _ => "float64"
  | SBool _ => "bool"
  | SObject _ => "object"
  end.

(** [pd.api.types.is_numeric_dtype]: booleans count as numeric. *)
Definition is_numeric_dtype (s : Series) : bool :=
  match s with
  | SObject _ => false
  | _ => true
  end.

Definition columns (df : DataFrame) : list string := map fst (data df).

(** [len(df)]. *)
Definition len (df : DataFrame) : nat := List.length (index df).

(** [df.empty]: some axis has length 0. *)
Definition empty (df : DataFrame) : bool :=
  Nat.eqb (len df) 0 || match data df with [] => true | _ => false end.

Fixpoint find_column (c : string) (cols : list (string * Series))
  : option Series :=
  match cols with
  | [] => None
  | (c', s) :: rest => if String.eqb c c' then Some s else find_column c rest
  end.

(** Boolean-mask selection. *)
Fixpoint select {A : Type} (mask : list bool) (l : list A) : list A :=
  match mask, l with
  | b :: mask', x :: l' => if b then x :: select mask' l' else select mask' l'
  | _, _ => []
  end.

Definition series_select (mask : list bool) (s : Series) : Series :=
  match s with
  | SInt64 l => SInt64 (select mask l)
  | SFloat64 l => SFloat64 (select mask l)
  | SBool l => SBool (select mask l)
  | SObject l => SObject (select mask l)
  end.

(** [df[mask]]. *)
Definition frame_select (mask : list bool) (df : DataFrame) : DataFrame :=
  mkFrame (select mask (index df))
          (map (fun cs => (fst cs, series_select mask (snd cs))) (data df)).

(** Selection by position, in the order of the positions. *)
Definition pick {A : Type} (p : list nat) (l : list A) : list A :=
  flat_map (fun i => match nth_error l i with
                     | Some x => [x]
                     | None => []
                     end) p.

Definition series_pick (p : list nat) (s : Series) : Series :=
  match s with
  | SInt64 l => SInt64 (pick p l)
  | SFloat64 l => SFloat64 (pick p l)
  | SBool l => SBool (pick p l)
  | SObject l => SObject (pick p l)
  end.

Definition frame_pick (p : list nat) (df : DataFrame) : DataFrame :=
  mkFrame (pick p (index df))
          (map (fun cs => (fst cs, series_pick p (snd cs))) (data df)).

(** [l[-k:]]: the last [k] elements, and the whole list when [k] is 0. *)
Definition lastn {A : Type} (k : nat) (l : list A) : list A :=
  match k with
  | O => l
  | _ => skipn (List.length l - k) l
  end.

Definition series_lastn (k : nat) (s : Series) : Series :=
  match s with
  | SInt64 l => SInt64 (lastn k l)
  | SFloat64 l => SFloat64 (lastn k l)
  | SBool l => SBool (lastn k l)
  | SObject l => SObject (lastn k l)
  end.

(** ** Numbers *)

(** [float(z)] for an integer, rounded to the nearest binary64. *)
Definition float_of_Z (z : Z) : float :=
  SF2Prim (binary_normalize prec emax z 0 false).

Definition float_of_bool (b : bool) : float :=
  if b then 1%float else 0%float.

(** A numeric column as [float64] values. *)
Definition series_floats (s : Series) : option (list float) :=
  match s with
  | SInt64 l => Some (map float_of_Z l)
  | SFloat64 l => Some l
  | SBool l => Some (map float_of_bool l)
  | SObject _ => None
  end.

(** The six comparison operators of a filter. *)
Inductive cmp : Type := OpEq | OpNe | OpGt | OpLt | OpGe | OpLe.

Definition float_cmp (op : cmp) (x v : float) : bool :=
  match op with
  | OpEq => PrimFloat.eqb x v
  | OpNe => negb (PrimFloat.eqb x v)
  | OpGt => PrimFloat.ltb v x
  | OpLt => PrimFloat.ltb x v
  | OpGe => PrimFloat.leb v x
  | OpLe => PrimFloat.leb x v
  end.

Definition of_comparison (op : cmp) (c : comparison) : bool :=
  match op, c with
  | OpEq, Eq => true
  | OpNe, (Lt | Gt) => true
  | OpGt, Gt => true
  | OpLt, Lt => true
  | OpGe, (Gt | Eq) => true
  | OpLe, (Lt | Eq) => true
  | _, _ => false
  end.

(** An integer against a float, compared exactly as Python does. *)
Definition Z_float_compare (z : Z) (f : float) : option comparison :=
  match Prim2SF f with
  | S754_nan => None
  | S754_zero _ => Some (Z.compare z 0)
  | S754_infinity neg => Some (if neg then Gt else Lt)
  | S754_finite neg m e =>
      let v := cond_Zopp neg (Zpos m) in
      Some (if Z.leb 0 e then Z.compare z (v * 2 ^ e)
            else Z.compare (z * 2 ^ (- e)) v)
  end.

Definition as_int (v : pyval) : option Z :=
  match v with
  | PBool b => Some (if b then 1%Z else 0%Z)
  | PInt z => Some z
  | _ => None
  end.

(** [x op y] between two Python values that are not missing, the second
    a scalar: strings against strings, numbers against numbers; anything
    else is unequal, and ordering it raises [TypeError]. *)
Definition richcmp (op : cmp) (x y : pyval) : result bool :=
  let mismatch :=
    match op with
    | OpEq => Ok false
    | OpNe => Ok true
    | _ => Raise TypeError
    end in
  match x, y with
  | PStr a, PStr b => Ok (of_comparison op (String.compare a b))
  | PFloat a, PFloat b => Ok (float_cmp op a b)
  | PFloat a, _ =>
      match as_int y with
      | Some z =>
          Ok (match Z_float_compare z a with
              | Some c => of_comparison op (CompOpp c)
              | None => match op with OpNe => true | _ => false end
              end)
      | None => mismatch
      end
  | _, PFloat b =>
      match as_int x with
      | Some z =>
          Ok (match Z_float_compare z b with
              | Some c => of_comparison op c
              | None => match op with OpNe => true | _ => false end
              end)
      | None => mismatch
      end
  | _, _ =>
      match as_int x, as_int y with
      | Some a, Some b => Ok (of_comparison op (Z.compare a b))
      | _, _ => mismatch
      end
  end.

(** [pandas.isna] on a scalar. *)
Definition checknull (v : pyval) : bool :=
  match v with
  | PNone => true
  | PFloat f => PrimFloat.is_nan f
  | _ => false
  end.

(** One cell of an [object] column against a scalar: a missing value on
    either side answers [True] for [!=] and [False] otherwise; [==] and
    [!=] absorb a [TypeError] of the comparison, the orderings let it
    through. *)
Definition cell_compare (op : cmp) (x val : pyval) : result bool :=
  if checknull x || checknull val then
    Ok (match op with OpNe => true | _ => false end)
  else
    match op with
    | OpEq => Ok (match richcmp OpEq x val with Ok b => b | Raise _ => false end)
    | OpNe => Ok (match richcmp OpNe x val with Ok b => b | Raise _ => true end)
    | _ => richcmp op x val
    end.

Fixpoint scalar_compare (op : cmp) (cells : list pyval) (val : pyval)
  : result (list bool) :=
  match cells with
  | [] => Ok []
  | x :: rest =>
      b <- cell_compare op x val ;;
      bs <- scalar_compare op rest val ;;
      Ok (b :: bs)
  end.

(** The commands sent to matplotlib while a chart is drawn. *)
Inductive plot_cmd : Type :=
| Figure
| Plot (x y : Series)
| Bar (x y : Series)
| GroupedMeanBar (d : DataFrame) (x_col y_col : pyval)
| Scatter (x y : Series)
| Hist (x : Series)
| BoxPlot (x : Series)
| CorrHeatmap (d : DataFrame) (numeric_cols : list string)
| XLabel (label : pyval)
| YLabel (label : pyval)
| Title (operation chart_type : string)
| TightLayout
| SaveFig.

(* ===================================================================== *)
(** * The libraries the engine calls *)
(* ===================================================================== *)

(** What the engine takes from pandas, NumPy, scikit-learn, statsmodels
    and matplotlib.  Their floating-point results are not reproduced here:
    every property below holds for any implementation of this interface. *)
Class Libraries : Type := {
  (** [float(s)] on a str; [None] stands for its [ValueError]. *)
  float_of_str : string -> option float;
  (** [pd.read_csv(path)]. *)
  read_csv : string -> result DataFrame;
  (** [series <op> value] in the cases [series_cmp] below leaves to
      pandas: a list or dict operand, and a numeric column against an
      operand that is not a float. *)
  compare_other : cmp -> Series -> pyval -> result (list bool);
  (** [df[key]] for a key that is not a str. *)
  getitem_other : DataFrame -> pyval -> result Series;
  (** [series.mean()], [.sum()], [.min()], [.max()], [.std()], by name. *)
  series_reduce : string -> Series -> result float;
  (** [df.groupby(group_by)[target].<name>().to_dict()]. *)
  groupby_reduce : string -> DataFrame -> pyval -> pyval -> result pyval;
  (** [df.groupby(group_by).size().to_dict()]. *)
  groupby_size : DataFrame -> pyval -> result pyval;
  (** [df[[key]].values] for a key that is not a str. *)
  getitem_list_other : DataFrame -> pyval -> result Series;
  (** [df[[x_col, y_col]].corr().iloc[0, 1]]. *)
  frame_corr : DataFrame -> pyval -> pyval -> result float;
  (** [LinearRegression().fit(X, y)]: coefficient and intercept. *)
  LinearRegression_fit : Series -> Series -> result (float * float);
  (** [model.score(X, y)]. *)
  LinearRegression_score : float * float -> Series -> Series -> result float;
  (** [df.sort_values(by)], with the default sort kind. *)
  sort_values : DataFrame -> pyval -> result DataFrame;
  (** [ExponentialSmoothing(train, seasonal_periods=4, trend='add',
      seasonal='add').fit().forecast(steps=3)]. *)
  ExponentialSmoothing_forecast : Series -> result (list float);
  (** [np.mean] of a [float64] array. *)
  mean_float64 : list float -> float;
  (** [np.mean] of an [object] array. *)
  mean_object : list pyval -> result float;
  (** The matplotlib calls of one chart, up to the base64 text of the
      saved PNG. *)
  plt_render : list plot_cmd -> result string
}.

(* ===================================================================== *)
(** * Execution engine (execution_engine.py) *)
(* ===================================================================== *)

Module ExecutionEngine.

(** The instance attributes [self.df] and [self.column_info]. *)
Record engine : Type := Engine {
  df : option DataFrame;
  column_info : list (string * string)
}.

(** [__init__]. *)
Definition init : engine := Engine None [].

(** The [error] text of a failed call: a literal of the source, or the
    [Execution failed: {str(e)}] of the outer handler, or the [str(e)] of
    a failed load. *)
Inductive error_text : Type :=
| Text (s : string)
| ExecutionFailed (e : exn)
| LoadFailed (e : exn).

(** What [load_csv] returns. *)
Inductive load_response : Type :=
| LoadSuccess (cols : list string) (column_types : list (string * string))
              (row_count : nat) (preview : list (list (string * pyval)))
| LoadFailure (error : error_text).

(** What [execute_plan] returns. *)
Inductive response : Type :=
| Success (operation : pyval) (result : pyval) (chart : option string)
          (filtered_row_count : nat)
| Failure (error : error_text).

Definition success (r : response) : bool :=
  match r with Success _ _ _ _ => true | Failure _ => false end.

Definition cells (s : Series) : list pyval :=
  match s with
  | SInt64 l => map PInt l
  | SFloat64 l => map PFloat l
  | SBool l => map PBool l
  | SObject l => l
  end.

(** [df.head(5).to_dict(orient='records')]. *)
Definition preview_records (d : DataFrame) : list (list (string * pyval)) :=
  map (fun i => flat_map (fun cs => match nth_error (cells (snd cs)) i with
                                    | Some v => [(fst cs, v)]
                                    | None => []
                                    end) (data d))
      (seq 0 (Nat.min 5 (len d))).

Section WithLibraries.
Context {L : Libraries}.

(** [load_csv(file_path)]: the engine after the call and the value
    returned.  The two attributes are assigned only after [read_csv] has
    returned. *)
Definition load_csv (self : engine) (file_path : string)
  : engine * load_response :=
  match read_csv file_path with
  | Raise e => (self, LoadFailure (LoadFailed e))
  | Ok d =>
      let self := Engine (Some d) (column_info self) in
      (* Infer and store column types *)
      let self := Engine (df self)
                         (map (fun cs => (fst cs, dtype_name (snd cs)))
                              (data d)) in
      (self, LoadSuccess (columns d) (column_info self) (len d)
                         (preview_records d))
  end.

(** [float(value)]. *)
Definition py_float (value : pyval) : result float :=
  match value with
  | PBool b => Ok (float_of_bool b)
  | PInt z =>
      let f := float_of_Z z in
      if PrimFloat.is_infinity f then Raise OverflowError else Ok f
  | PFloat f => Ok f
  | PStr s =>
      match float_of_str s with
      | Some f => Ok f
      | None =>
          Raise (ValueError "could not convert string to float: {}" [value])
      end
  | _ => Raise TypeError
  end.

(** [for f in filters]: what iterating the value yields. *)
Definition py_iter (v : pyval) : result (list pyval) :=
  match v with
  | PList l => Ok l
  | PDict d => Ok (map (fun kv => PStr (fst kv)) d)
  | PStr s =>
      Ok (map (fun a => PStr (String a EmptyString)) (list_ascii_of_string s))
  | _ => Raise TypeError
  end.

(** [column in df.columns]. *)
Definition in_columns (d : DataFrame) (column : pyval) : result bool :=
  match column with
  | PStr c => Ok (match find_column c (data d) with
                  | Some _ => true
                  | None => false
                  end)
  | PList _ | PDict _ => Raise TypeError
  | _ => Ok false
  end.

(** [df[key]]. *)
Definition df_getitem (d : DataFrame) (key : pyval) : result Series :=
  match key with
  | PStr c =>
      match find_column c (data d) with
      | Some s => Ok s
      | None => Raise (KeyError key)
      end
  | _ => getitem_other d key
  end.

(** [df[[key]].values]: the one column, as the rows of a 2-D array. *)
Definition df_getitem_list (d : DataFrame) (key : pyval) : result Series :=
  match key with
  | PStr c =>
      match find_column c (data d) with
      | Some s => Ok s
      | None => Raise (KeyError key)
      end
  | _ => getitem_list_other d key
  end.

(** [series <op> value], the boolean mask. *)
Definition series_cmp (op : cmp) (s : Series) (value : pyval)
  : result (list bool) :=
  match s, value with
  | SObject l, _ =>
      if hashable value then scalar_compare op l value
      else compare_other op s value
  | _, PFloat v =>
      match series_floats s with
      | Some xs => Ok (map (fun x => float_cmp op x v) xs)
      | None => compare_other op s value
      end
  | _, _ => compare_other op s value
  end.

(** One turn of the loop of [_apply_filters]. *)
Definition apply_filter (filtered : DataFrame) (f : pyval)
  : result DataFrame :=
  column <- getitem f "column" ;;
  operator <- getitem f "operator" ;;
  value <- getitem f "value" ;;
  present <- in_columns filtered column ;;
  if negb present then
    Raise (ValueError "Column '{}' not found in dataset" [column])
  else
    (* Convert value to appropriate type *)
    col <- df_getitem filtered column ;;
    value <-
      (if is_numeric_dtype col then
         match py_float value with
         | Ok v => Ok (PFloat v)
         | Raise (ValueError _ _) | Raise TypeError =>
             Raise (ValueError
                      "Cannot compare numeric column '{}' with non-numeric value '{}'"
                      [column; value])
         | Raise e => Raise e
         end
       else Ok value) ;;
    (* Apply operator *)
    if eq_str operator "==" then
      mask <- series_cmp OpEq col value ;; Ok (frame_select mask filtered)
    else if eq_str operator "!=" then
      mask <- series_cmp OpNe col value ;; Ok (frame_select mask filtered)
    else if eq_str operator ">" then
      mask <- series_cmp OpGt col value ;; Ok (frame_select mask filtered)
    else if eq_str operator "<" then
      mask <- series_cmp OpLt col value ;; Ok (frame_select mask filtered)
    else if eq_str operator ">=" then
      mask <- series_cmp OpGe col value ;; Ok (frame_select mask filtered)
    else if eq_str operator "<=" then
      mask <- series_cmp OpLe col value ;; Ok (frame_select mask filtered)
    else Ok filtered.

Fixpoint apply_filter_loop (filtered : DataFrame) (fs : list pyval)
  : result DataFrame :=
  match fs with
  | [] => Ok filtered
  | f :: rest =>
      filtered <- apply_filter filtered f ;;
      apply_filter_loop filtered rest
  end.

(** [_apply_filters(df, filters)]. *)
Definition _apply_filters (d : DataFrame) (filters : pyval)
  : result DataFrame :=
  let filtered := d in
  fs <- py_iter filters ;;
  apply_filter_loop filtered fs.

(** [float(values[-1])]: a NumPy number converts as it is, a Python
    object of an [object] array goes through [float()]. *)
Definition last_as_float (s : Series) : result float :=
  match series_floats s with
  | Some xs =>
      match rev xs with
      | [] => Raise IndexError
      | x :: _ => Ok x
      end
  | None =>
      match rev (cells s) with
      | [] => Raise IndexError
      | v :: _ => py_float v
      end
  end.

(** [np.mean(train)]. *)
Definition np_mean (s : Series) : result float :=
  match series_floats s with
  | Some xs => Ok (mean_float64 xs)
  | None => mean_object (cells s)
  end.

(** The aggregation branches share one shape. *)
Definition aggregate (name : string) (d : DataFrame)
  (group_by target_col : pyval) : result pyval :=
  if truthy group_by then groupby_reduce name d group_by target_col
  else
    col <- df_getitem d target_col ;;
    x <- series_reduce name col ;;
    Ok (PFloat x).

(** The training window of the forecast: sort by time, take the target
    values, keep the last 12 or all of them. *)
Definition forecast_values_and_train (d : DataFrame)
  (time_col target_col : pyval) : result (Series * Series) :=
  (* Sort by time *)
  df_sorted <- sort_values d time_col ;;
  values <- df_getitem df_sorted target_col ;;
  (* Use last 12 points or all if less *)
  let train_size := Nat.min (series_len values) 12 in
  let train := series_lastn train_size values in
  Ok (values, train).

(** [_execute_operation(df, plan)]. *)
Definition _execute_operation (d : DataFrame) (plan : pyval) : result pyval :=
  operation <- getitem plan "operation" ;;
  target_col <- get plan "target_column" ;;
  group_by <- get_default plan "group_by" (PList []) ;;
  (* Aggregation operations *)
  if eq_str operation "mean" then aggregate "mean" d group_by target_col
  else if eq_str operation "sum" then aggregate "sum" d group_by target_col
  else if eq_str operation "count" then
    if truthy group_by then groupby_size d group_by
    else Ok (PInt (Z.of_nat (len d)))
  else if eq_str operation "min" then aggregate "min" d group_by target_col
  else if eq_str operation "max" then aggregate "max" d group_by target_col
  else if eq_str operation "std" then aggregate "std" d group_by target_col
  (* Correlation *)
  else if eq_str operation "correlation" then
    x_col <- getitem plan "x_axis" ;;
    y_col <- getitem plan "y_axis" ;;
    correlation <- frame_corr d x_col y_col ;;
    Ok (PDict [("correlation_coefficient", PFloat correlation);
               ("x_column", x_col);
               ("y_column", y_col)])
  (* Regression *)
  else if eq_str operation "regression" then
    x_col <- getitem plan "x_axis" ;;
    y_col <- getitem plan "y_axis" ;;
    X <- df_getitem_list d x_col ;;
    y <- df_getitem d y_col ;;
    model <- LinearRegression_fit X y ;;
    r_squared <- LinearRegression_score model X y ;;
    Ok (PDict [("slope", PFloat (fst model));
               ("intercept", PFloat (snd model));
               ("r_squared", PFloat r_squared);
               ("x_column", x_col);
               ("y_column", y_col)])
  (* Forecast *)
  else if eq_str operation "forecast" then
    time_col <- getitem plan "time_column" ;;
    target_col <- getitem plan "target_column" ;;
    vt <- forecast_values_and_train d time_col target_col ;;
    let values := fst vt in
    let train := snd vt in
    try_except
      (forecast <- ExponentialSmoothing_forecast train ;;
       last_actual <- last_as_float values ;;
       Ok (PDict [("forecast_values", PList (map PFloat forecast));
                  ("last_actual", PFloat last_actual);
                  ("target_column", target_col)]))
      (fun _ =>
         (* Fallback to simple moving average if exponential smoothing fails *)
         forecast_value <- np_mean train ;;
         last_actual <- last_as_float values ;;
         Ok (PDict [("forecast_values",
                     PList (repeat (PFloat forecast_value) 3));
                    ("last_actual", PFloat last_actual);
                    ("target_column", target_col);
                    ("method", PStr "simple_average")]))
  else Raise (ValueError "Unknown operation: {}" [operation]).

(** [a or b]. *)
Definition py_or (a b : pyval) : pyval := if truthy a then a else b.

Definition is_number_column (s : Series) : bool :=
  match s with
  | SInt64 _ | SFloat64 _ => true
  | _ => false
  end.

Definition str_of (v : pyval) : result string :=
  match v with
  | PStr s => Ok s
  | _ => Raise AttributeError
  end.

(** The body of the [try] of [_generate_chart]: the drawing commands of
    the chart, then the rendering. *)
Definition chart_body (d : DataFrame) (plan chart_type : pyval)
  : result string :=
  drawing <-
    (if eq_str chart_type "line" then
       x_col <- get plan "x_axis" ;;
       y_axis <- get plan "y_axis" ;;
       target_column <- get plan "target_column" ;;
       let y_col := py_or y_axis target_column in
       if truthy x_col && truthy y_col then
         x <- df_getitem d x_col ;;
         y <- df_getitem d y_col ;;
         Ok [Plot x y; XLabel x_col; YLabel y_col]
       else Ok []
     else if eq_str chart_type "bar" then
       x_col <- get plan "x_axis" ;;
       y_axis <- get plan "y_axis" ;;
       target_column <- get plan "target_column" ;;
       let y_col := py_or y_axis target_column in
       if truthy x_col && truthy y_col then
         group_by <- get plan "group_by" ;;
         bars <-
           (if truthy group_by then
              Ok [GroupedMeanBar d x_col y_col]
            else
              x <- df_getitem d x_col ;;
              y <- df_getitem d y_col ;;
              Ok [Bar x y]) ;;
         Ok (bars ++ [XLabel x_col; YLabel y_col])
       else Ok []
     else if eq_str chart_type "scatter" then
       x_col <- get plan "x_axis" ;;
       y_col <- get plan "y_axis" ;;
       if truthy x_col && truthy y_col then
         x <- df_getitem d x_col ;;
         y <- df_getitem d y_col ;;
         Ok [Scatter x y; XLabel x_col; YLabel y_col]
       else Ok []
     else if eq_str chart_type "histogram" then
       target_col <- get plan "target_column" ;;
       if truthy target_col then
         x <- df_getitem d target_col ;;
         Ok [Hist x; XLabel target_col; YLabel (PStr "Frequency")]
       else Ok []
     else if eq_str chart_type "box" then
       target_col <- get plan "target_column" ;;
       if truthy target_col then
         x <- df_getitem d target_col ;;
         Ok [BoxPlot x; YLabel target_col]
       else Ok []
     else if eq_str chart_type "heatmap" then
       (* Correlation heatmap of numeric columns *)
       let numeric_cols :=
         map fst (filter (fun cs => is_number_column (snd cs)) (data d)) in
       if Nat.ltb 1 (List.length numeric_cols) then
         Ok [CorrHeatmap d numeric_cols]
       else Ok []
     else Ok []) ;;
  operation <- getitem plan "operation" ;;
  operation <- str_of operation ;;
  chart_type <- str_of chart_type ;;
  (* Convert to base64 *)
  image_base64 <-
    plt_render ([Figure] ++ drawing ++
                [Title operation chart_type; TightLayout; SaveFig]) ;;
  Ok (String.append "data:image/png;base64," image_base64).

(** [_generate_chart(df, plan)]: [None] when no chart is asked for and
    when anything in the body raises. *)
Definition _generate_chart (d : DataFrame) (plan : pyval)
  : result (option string) :=
  chart_type <- get plan "chart_type" ;;
  if negb (truthy chart_type) then Ok None
  else
    match chart_body d plan chart_type with
    | Ok image => Ok (Some image)
    | Raise _ => Ok None
    end.

(** The body of the [try] of [execute_plan]. *)
Definition execute_plan_body (d : DataFrame) (plan : pyval)
  : result response :=
  (* Apply filters first *)
  filters <- get_default plan "filters" (PList []) ;;
  filtered_df <- _apply_filters d filters ;;
  if empty filtered_df then
    Ok (Failure (Text "Filters resulted in empty dataset"))
  else
    (* Execute the operation *)
    operation <- getitem plan "operation" ;;
    result <- _execute_operation filtered_df plan ;;
    (* Generate chart if requested *)
    chart_type <- get plan "chart_type" ;;
    chart_data <-
      (if truthy chart_type then _generate_chart filtered_df plan
       else Ok None) ;;
    Ok (Success operation result chart_data (len filtered_df)).

(** [execute_plan(plan)]. *)
Definition execute_plan (self : engine) (plan : pyval) : response :=
  match df self with
  | None => Failure (Text "No CSV data loaded")
  | Some d =>
      match execute_plan_body d plan with
      | Ok r => r
      | Raise e => Failure (ExecutionFailed e)
      end
  end.

End WithLibraries.

End ExecutionEngine.

(* ===================================================================== *)
(** * Filters: vocabulary of the statements *)
(* ===================================================================== *)

Module FilterSteps.
Import ExecutionEngine.

(** The conjunction of two masks, position by position. *)
Fixpoint mask_and (m1 m2 : list bool) : list bool :=
  match m1, m2 with
  | b1 :: r1, b2 :: r2 => (b1 && b2) :: mask_and r1 r2
  | _, _ => []
  end.

Definition is_eq_or_ne (op : cmp) : bool :=
  match op with OpEq | OpNe => true | _ => false end.

(** The filter uses [==] or [!=]. *)
Definition eq_or_ne_filter (f : pyval) : bool :=
  match getitem f "operator" with
  | Ok op => eq_str op "==" || eq_str op "!="
  | Raise _ => false
  end.

(** The filter's value is a scalar. *)
Definition scalar_valued (f : pyval) : bool :=
  match getitem f "value" with
  | Ok v => hashable v
  | Raise _ => false
  end.

(** The two filters name different columns. *)
Definition on_disjoint_columns (A B : pyval) : Prop :=
  forall a b, getitem A "column" = Ok a -> getitem B "column" = Ok b ->
              a <> b.

(** The frame a filter list leaves, when it leaves one. *)
Definition outcome (r : result DataFrame) : option DataFrame :=
  match r with
  | Ok d => Some d
  | Raise _ => None
  end.

Section WithLibraries.
Context {L : Libraries}.

(** The two steps of a loop turn once the column is found. *)
Definition convert_value (column value : pyval) (col : Series)
  : result pyval :=
  if is_numeric_dtype col then
    match py_float value with
    | Ok v => Ok (PFloat v)
    | Raise (ValueError _ _) | Raise TypeError =>
        Raise (ValueError
                 "Cannot compare numeric column '{}' with non-numeric value '{}'"
                 [column; value])
    | Raise e => Raise e
    end
  else Ok value.

Definition apply_operator (operator : pyval) (col : Series) (value : pyval)
  (filtered : DataFrame) : result DataFrame :=
  if eq_str operator "==" then
    mask <- series_cmp OpEq col value ;; Ok (frame_select mask filtered)
  else if eq_str operator "!=" then
    mask <- series_cmp OpNe col value ;; Ok (frame_select mask filtered)
  else if eq_str operator ">" then
    mask <- series_cmp OpGt col value ;; Ok (frame_select mask filtered)
  else if eq_str operator "<" then
    mask <- series_cmp OpLt col value ;; Ok (frame_select mask filtered)
  else if eq_str operator ">=" then
    mask <- series_cmp OpGe col value ;; Ok (frame_select mask filtered)
  else if eq_str operator "<=" then
    mask <- series_cmp OpLe col value ;; Ok (frame_select mask filtered)
  else Ok filtered.

End WithLibraries.

End FilterSteps.

(* ===================================================================== *)
(** * The order of [sort_values] *)
(* ===================================================================== *)

(** pandas documents [sort_values] as sorting ascending, missing values
    last, with [kind='quicksort'] by default, and names only [mergesort]
    and [stable] as stable kinds.  The contract below is that much: the
    result holds the rows of the frame, reordered so that the keys
    ascend; nothing is said of rows with equal keys. *)
Module SortOrder.

Inductive sort_key : Type :=
| KNum (z : Z)
| KStr (s : string)
| KNull.

(** A float as the integer [f * 2^1074], which orders floats as their
    values; infinities lie beyond every finite value. *)
Definition float_key (f : float) : sort_key :=
  match Prim2SF f with
  | S754_nan => KNull
  | S754_zero _ => KNum 0
  | S754_infinity neg => KNum (cond_Zopp neg (2 ^ 2100))
  | S754_finite neg m e => KNum (cond_Zopp neg (Zpos m) * 2 ^ (e + 1074))
  end.

Definition cell_key (v : pyval) : sort_key :=
  match v with
  | PStr s => KStr s
  | _ => KNull
  end.

Definition series_keys (s : Series) : list sort_key :=
  match s with
  | SInt64 l => map KNum l
  | SFloat64 l => map float_key l
  | SBool l => map (fun b : bool => KNum (if b then 1 else 0)) l
  | SObject l => map cell_key l
  end.


Definition key_leb (a b : sort_key) : bool :=
  match a, b with
  | _, KNull => true
  | KNull, _ => false
  | KNum x, KNum y => Z.leb x y
  | KStr x, KStr y => String.leb x y
  | KNum _, KStr _ => true
  | KStr _, KNum _ => false
  end.

Definition key_at (keys : list sort_key) (i : nat) : sort_key :=
  nth i keys KNull.



(** Insertion of a position into positions already in order, before the
    first one whose key is not smaller. *)
Fixpoint insert (keys : list sort_key) (i : nat) (l : list nat) : list nat :=
  match l with
  | [] => [i]
  | j :: l' =>
      if key_leb (key_at keys i) (key_at keys j) then i :: j :: l'
      else j :: insert keys i l'
  end.

Definition order_of (keys : list sort_key) (positions : list nat) : list nat :=
  fold_right (insert keys) [] positions.

(** The stable order: rows with equal keys keep their relative order. *)
Definition stable_order (keys : list sort_key) : list nat :=
  order_of keys (seq 0 (List.length keys)).



End SortOrder.

(* ===================================================================== *)
(** * The default sort kind: NumPy's quicksort *)
(* ===================================================================== *)

(** [df.sort_values(time_col)] leaves [kind] at its default,
    ['quicksort']: pandas' [nargsort] sets the missing values aside, asks
    NumPy for [argsort(kind='quicksort')] of the others and puts the
    missing ones last.  NumPy's routine ([aquicksort_] in
    npysort/quicksort.cpp) is an introsort on the array [tosort] of row
    numbers: median-of-three partitions while a range spans more than 16
    places, insertion sort below, heapsort once the depth budget is
    spent.  It is written here loop by loop; each loop has as fuel the
    length of the array, which none of them exhausts. *)
Module NumpySort.
Import SortOrder.

Definition SMALL_QUICKSORT : nat := 16.

Definition deref (tosort : list nat) (p : nat) : nat := nth p tosort 0%nat.

Fixpoint store (tosort : list nat) (p x : nat) : list nat :=
  match tosort, p with
  | [], _ => []
  | _ :: rest, O => x :: rest
  | y :: rest, S p' => y :: store rest p' x
  end.

(** [INTP_SWAP( *p, *q)]. *)
Definition INTP_SWAP (tosort : list nat) (p q : nat) : list nat :=
  let tmp := deref tosort q in
  store (store tosort q (deref tosort p)) p tmp.

(** [npy_get_msb(num)]: how often [num] halves before it is 0. *)
Definition npy_get_msb (num : nat) : Z := Z.of_nat (Nat.log2 num).

Section Argsort.

(** [less i j] is [Tag::less(v[i], v[j])] for two row numbers. *)
Variable less : nat -> nat -> bool.

(** [do { ++pi; } while (Tag::less(v[*pi], vp));] *)
Fixpoint scan_up (fuel : nat) (tosort : list nat) (vp pi : nat) : nat :=
  match fuel with
  | O => pi
  | S fuel' =>
      let pi := S pi in
      if less (deref tosort pi) vp then scan_up fuel' tosort vp pi else pi
  end.

(** [do { --pj; } while (Tag::less(vp, v[*pj]));] *)
Fixpoint scan_down (fuel : nat) (tosort : list nat) (vp pj : nat) : nat :=
  match fuel with
  | O => pj
  | S fuel' =>
      let pj := (pj - 1)%nat in
      if less vp (deref tosort pj) then scan_down fuel' tosort vp pj else pj
  end.

(** The [for (;;)] loop of the partition: both scans, then the exchange
    unless the two pointers have met. *)
Fixpoint exchange (fuel : nat) (tosort : list nat) (vp pi pj : nat)
  : list nat * nat :=
  match fuel with
  | O => (tosort, pi)
  | S fuel' =>
      let pi := scan_up (List.length tosort) tosort vp pi in
      let pj := scan_down (List.length tosort) tosort vp pj in
      if (pj <=? pi)%nat then (tosort, pi)
      else exchange fuel' (INTP_SWAP tosort pi pj) vp pi pj
  end.

(** One [/* quicksort partition */] of the places [pl..pr]: the median
    of the first, middle and last row is the pivot [vp], parked at
    [pr - 1] and brought to its final place [pi] at the end. *)
Definition partition (tosort : list nat) (pl pr : nat) : list nat * nat :=
  let pm := (pl + Nat.shiftr (pr - pl) 1)%nat in
  let tosort :=
    if less (deref tosort pm) (deref tosort pl)
    then INTP_SWAP tosort pm pl else tosort in
  let tosort :=
    if less (deref tosort pr) (deref tosort pm)
    then INTP_SWAP tosort pr pm else tosort in
  let tosort :=
    if less (deref tosort pm) (deref tosort pl)
    then INTP_SWAP tosort pm pl else tosort in
  let vp := deref tosort pm in
  let pi := pl in
  let pj := (pr - 1)%nat in
  let tosort := INTP_SWAP tosort pm pj in
  let '(tosort, pi) := exchange (List.length tosort) tosort vp pi pj in
  let pk := (pr - 1)%nat in
  (INTP_SWAP tosort pi pk, pi).

(** A range left for later with the depth budget it was pushed with:
    [*sptr++ = ...; *sptr++ = ...; *psdepth++ = --cdepth;]. *)
Definition pending : Type := (nat * nat * Z)%type.

(** [while ((pr - pl) > SMALL_QUICKSORT) { ... }]: partition, push the
    larger side, go on with the smaller. *)
Fixpoint partitions (fuel : nat) (tosort : list nat) (pl pr : nat)
  (cdepth : Z) (stack : list pending)
  : list nat * nat * nat * Z * list pending :=
  match fuel with
  | O => (tosort, pl, pr, cdepth, stack)
  | S fuel' =>
      if (SMALL_QUICKSORT <? pr - pl)%nat then
        let '(tosort, pi) := partition tosort pl pr in
        let cdepth := (cdepth - 1)%Z in
        if (pi - pl <? pr - pi)%nat then
          partitions fuel' tosort pl (pi - 1)%nat cdepth
                     ((S pi, pr, cdepth) :: stack)
        else
          partitions fuel' tosort (S pi) pr cdepth
                     ((pl, (pi - 1)%nat, cdepth) :: stack)
      else (tosort, pl, pr, cdepth, stack)
  end.

(** [while (pj > pl && Tag::less(vp, v[*pk])) { *pj-- = *pk--; }
    *pj = vi;] with [pk = pj - 1] throughout. *)
Fixpoint shift_down (fuel : nat) (tosort : list nat) (pl vi pj : nat)
  : list nat :=
  match fuel with
  | O => store tosort pj vi
  | S fuel' =>
      if (pl <? pj)%nat && less vi (deref tosort (pj - 1)) then
        shift_down fuel' (store tosort pj (deref tosort (pj - 1)))
                   pl vi (pj - 1)%nat
      else store tosort pj vi
  end.

(** [/* insertion sort */ for (pi = pl + 1; pi <= pr; ++pi) { ... }]:
    a row moves down only past rows with a greater key. *)
Fixpoint insertion (fuel : nat) (tosort : list nat) (pl pi pr : nat)
  : list nat :=
  match fuel with
  | O => tosort
  | S fuel' =>
      if (pi <=? pr)%nat then
        insertion fuel'
          (shift_down (List.length tosort) tosort pl (deref tosort pi) pi)
          pl (S pi) pr
      else tosort
  end.

(** [aheapsort_] works on [a = tosort - 1], places counted from 1, here
    on the range that starts at [pl]. *)
Definition a_get (tosort : list nat) (pl k : nat) : nat :=
  deref tosort (pl + k - 1).

Definition a_set (tosort : list nat) (pl k x : nat) : list nat :=
  store tosort (pl + k - 1) x.

(** [for (i = ..., j = ...; j <= n;) { ... } a[i] = tmp;] *)
Fixpoint sift (fuel : nat) (tosort : list nat) (pl n tmp i j : nat)
  : list nat :=
  match fuel with
  | O => a_set tosort pl i tmp
  | S fuel' =>
      if (j <=? n)%nat then
        let j :=
          if (j <? n)%nat
             && less (a_get tosort pl j) (a_get tosort pl (j + 1))
          then (j + 1)%nat else j in
        if less tmp (a_get tosort pl j) then
          sift fuel' (a_set tosort pl i (a_get tosort pl j)) pl n tmp j
               (j + j)%nat
        else a_set tosort pl i tmp
      else a_set tosort pl i tmp
  end.

(** [for (l = n >> 1; l > 0; --l) { tmp = a[l]; ... }] *)
Fixpoint heapify (tosort : list nat) (pl n l : nat) : list nat :=
  match l with
  | O => tosort
  | S l' =>
      heapify (sift (List.length tosort) tosort pl n (a_get tosort pl l)
                    l (Nat.shiftl l 1))
              pl n l'
  end.

(** [for (; n > 1;) { tmp = a[n]; a[n] = a[1]; n -= 1; ... }] *)
Fixpoint extract (fuel : nat) (tosort : list nat) (pl n : nat) : list nat :=
  match fuel with
  | O => tosort
  | S fuel' =>
      if (1 <? n)%nat then
        let tmp := a_get tosort pl n in
        let tosort := a_set tosort pl n (a_get tosort pl 1) in
        let n := (n - 1)%nat in
        extract fuel' (sift (List.length tosort) tosort pl n tmp 1 2) pl n
      else tosort
  end.

Definition aheapsort_ (tosort : list nat) (pl n : nat) : list nat :=
  extract (List.length tosort) (heapify tosort pl n (Nat.shiftr n 1)) pl n.

(** [while (1) { ... stack_pop: ... }]: heapsort for a range whose
    budget is spent, else partitions and insertion sort; then the next
    pending range, until none is left. *)
Fixpoint sort_ranges (fuel : nat) (tosort : list nat) (pl pr : nat)
  (cdepth : Z) (stack : list pending) : list nat :=
  match fuel with
  | O => tosort
  | S fuel' =>
      let '(tosort, stack) :=
        if (cdepth <? 0)%Z then
          (aheapsort_ tosort pl (pr - pl + 1), stack)
        else
          let '(tosort, pl, pr, _, stack) :=
            partitions (List.length tosort) tosort pl pr cdepth stack in
          (insertion (S (List.length tosort)) tosort pl (S pl) pr, stack) in
      match stack with
      | [] => tosort
      | (pl, pr, cdepth) :: stack =>
          sort_ranges fuel' tosort pl pr cdepth stack
      end
  end.

(** [aquicksort_(v, tosort, num)] on [tosort = 0, 1, ..., num - 1], as
    [argsort] calls it. *)
Definition aquicksort_ (num : nat) : list nat :=
  sort_ranges (S num) (seq 0 num) 0 (num - 1) (npy_get_msb num * 2) [].

End Argsort.

Definition isna (k : sort_key) : bool :=
  match k with
  | KNull => true
  | _ => false
  end.

(** [a < b] on two values of one column. *)
Definition key_ltb (a b : sort_key) : bool :=
  match a, b with
  | KNum x, KNum y => Z.ltb x y
  | KStr x, KStr y => String.ltb x y
  | _, _ => false
  end.

(** [nargsort(items, kind='quicksort', ascending=True,
    na_position='last')]. *)
Definition nargsort (items : list sort_key) : list nat :=
  let idx := seq 0 (List.length items) in
  let non_nan_idx := filter (fun i => negb (isna (key_at items i))) idx in
  let nan_idx := filter (fun i => isna (key_at items i)) idx in
  let non_nans := map (key_at items) non_nan_idx in
  let less i j := key_ltb (key_at non_nans i) (key_at non_nans j) in
  map (fun j => nth j non_nan_idx 0%nat)
      (aquicksort_ less (List.length non_nans))
  ++ nan_idx.

End NumpySort.

(* ===================================================================== *)
(** * A small executable stand-in for the libraries *)
(* ===================================================================== *)

(** Enough of the libraries to run the engine on the sample frames below:
    textbook formulas in binary64 arithmetic, a file system of one file,
    and a seasonal model that refuses fewer than two full seasons, as
    statsmodels does.  It is used for examples only. *)
Module Sample.
Import SortOrder.

Definition fsum (xs : list float) : float :=
  fold_left PrimFloat.add xs 0%float.

Definition fmean (xs : list float) : float :=
  PrimFloat.div (fsum xs) (float_of_Z (Z.of_nat (List.length xs))).

Definition fmin (xs : list float) : float :=
  match xs with
  | [] => nan
  | x :: rest => fold_left (fun a b => if PrimFloat.ltb b a then b else a) rest x
  end.

Definition fmax (xs : list float) : float :=
  match xs with
  | [] => nan
  | x :: rest => fold_left (fun a b => if PrimFloat.ltb a b then b else a) rest x
  end.

Definition sq_dev (m : float) (xs : list float) : float :=
  fsum (map (fun x => PrimFloat.mul (PrimFloat.sub x m) (PrimFloat.sub x m)) xs).

Definition fstd (xs : list float) : float :=
  PrimFloat.sqrt
    (PrimFloat.div (sq_dev (fmean xs) xs)
                   (float_of_Z (Z.of_nat (List.length xs) - 1))).

Definition cross_dev (mx my : float) (xs ys : list float) : float :=
  fsum (map (fun xy => PrimFloat.mul (PrimFloat.sub (fst xy) mx)
                                     (PrimFloat.sub (snd xy) my))
            (combine xs ys)).

(** Least squares in one predictor; a predictor without variance gets
    the minimum-norm solution, coefficient 0. *)
Definition ols (xs ys : list float) : float * float :=
  let mx := fmean xs in
  let my := fmean ys in
  let sxx := sq_dev mx xs in
  let slope :=
    if PrimFloat.eqb sxx 0%float then 0%float
    else PrimFloat.div (cross_dev mx my xs ys) sxx in
  (slope, PrimFloat.sub my (PrimFloat.mul slope mx)).

(** The coefficient of determination, as [r2_score] computes it. *)
Definition r2 (model : float * float) (xs ys : list float) : float :=
  let pred := map (fun x => PrimFloat.add (PrimFloat.mul (fst model) x)
                                          (snd model)) xs in
  let ss_res :=
    fsum (map (fun yp => PrimFloat.mul (PrimFloat.sub (fst yp) (snd yp))
                                       (PrimFloat.sub (fst yp) (snd yp)))
              (combine ys pred)) in
  let ss_tot := sq_dev (fmean ys) ys in
  if Nat.ltb (List.length ys) 2 then nan
  else if PrimFloat.eqb ss_tot 0%float then
    if PrimFloat.eqb ss_res 0%float then 1%float else 0%float
  else PrimFloat.sub 1%float (PrimFloat.div ss_res ss_tot).

Definition with_floats {A : Type} (s : Series) (k : list float -> result A)
  : result A :=
  match series_floats s with
  | Some xs => k xs
  | None => Raise (ValueError "could not convert string to float" [])
  end.

Definition reduce (name : string) (xs : list float) : result float :=
  if String.eqb name "mean" then Ok (fmean xs)
  else if String.eqb name "sum" then Ok (fsum xs)
  else if String.eqb name "min" then Ok (fmin xs)
  else if String.eqb name "max" then Ok (fmax xs)
  else if String.eqb name "std" then Ok (fstd xs)
  else Raise AttributeError.

(** The sample data set: three sales in two regions. *)
Definition sales : DataFrame :=
  mkFrame [0; 1; 2]%Z
          [("region", SObject [PStr "N"; PStr "N"; PStr "S"]);
           ("quarter", SInt64 [1; 1; 2]%Z);
           ("sales", SFloat64 [10; 20; 30]%float)].

Definition sample_libs (sorter : list sort_key -> list nat)
  (render : list plot_cmd -> result string) : Libraries := {|
  float_of_str := fun _ => None;
  read_csv := fun path =>
    if String.eqb path "sales.csv" then Ok sales
    else Raise (LibraryError "No such file or directory");
  compare_other := fun _ _ _ => Raise TypeError;
  getitem_other := fun _ key => Raise (KeyError key);
  getitem_list_other := fun _ key => Raise (KeyError key);
  series_reduce := fun name s => with_floats s (reduce name);
  groupby_reduce := fun _ _ key _ => Raise (KeyError key);
  groupby_size := fun _ key => Raise (KeyError key);
  frame_corr := fun _ key _ => Raise (KeyError key);
  LinearRegression_fit := fun X y =>
    with_floats X (fun xs => with_floats y (fun ys => Ok (ols xs ys)));
  LinearRegression_score := fun model X y =>
    with_floats X (fun xs => with_floats y (fun ys => Ok (r2 model xs ys)));
  sort_values := fun d by_ =>
    match by_ with
    | PStr c =>
        match find_column c (data d) with
        | Some s => Ok (frame_pick (sorter (series_keys s)) d)
        | None => Raise (KeyError by_)
        end
    | _ => Raise (KeyError by_)
    end;
  ExponentialSmoothing_forecast := fun train =>
    if Nat.ltb (series_len train) 8 then
      Raise (ValueError
               "Cannot compute initial seasonals using heuristic method with less than two full seasonal cycles in the data."
               [])
    else with_floats train (fun xs => Ok (firstn 3 (lastn 4 xs)));
  mean_float64 := fmean;
  mean_object := fun _ => Raise TypeError;
  plt_render := render
|}.

Definition draws : list plot_cmd -> result string :=
  fun _ => Ok "iVBORw0KGgo=".

Definition backend_down : list plot_cmd -> result string :=
  fun _ => Raise (LibraryError "savefig failed").

(** The libraries with a stable sort and a working renderer. *)
Definition libs : Libraries := sample_libs stable_order draws.

(** The same with NumPy's quicksort as the sort: what [sort_values]
    does on a [bool] or [object] column, and on every column where NumPy
    has no vectorised [argsort] for 32- and 64-bit numbers. *)
Definition libs_quicksort : Libraries :=
  sample_libs NumpySort.nargsort draws.

(** The same with a renderer that fails. *)
Definition libs_no_chart : Libraries := sample_libs stable_order backend_down.

End Sample.

(* ===================================================================== *)
(** * Sample plans and frames *)
(* ===================================================================== *)

Module Examples.
Import PlanValidator ExecutionEngine.

Definition plan_not_a_mapping : pyval := PInt 5.

Definition plan_unhashable_operation : pyval :=
  PDict [("operation", PList [PStr "mean"])].

Definition plan_unknown_operation : list (string * pyval) :=
  [("operation", PStr "median");
   ("filters", PList [PInt 3; PDict [("column", PStr "region")]]);
   ("group_by", PStr "region");
   ("chart_type", PStr "pie");
   ("requires_clarification", PBool true)].

(** An unknown operation, a filter that is no object, a filter whose
    column is a number and whose operator is a list, and two more
    structural defects. *)
Definition filter_unhashable_operator : pyval :=
  PDict [("column", PInt 1); ("operator", PList [PStr "=="])].

Definition plan_unhashable_operator : list (string * pyval) :=
  [("operation", PStr "median");
   ("filters", PList [PInt 3; filter_unhashable_operator]);
   ("group_by", PStr "region");
   ("chart_type", PStr "pie")].

Definition plan_correlation_no_axes : list (string * pyval) :=
  [("operation", PStr "correlation")].

Definition plan_regression_one_axis : list (string * pyval) :=
  [("operation", PStr "regression"); ("x_axis", PStr "price")].

(** The one message of the axis requirement. *)
Definition requires_both (name : string) : message :=
  Msg (String.append "Operation '"
         (String.append name "' requires both x_axis and y_axis")) [].

(** The engine with the sample data set loaded. *)
Definition loaded : engine :=
  fst (load_csv (L := Sample.libs) init "sales.csv").

Definition filter_ (column operator : string) (value : pyval) : pyval :=
  PDict [("column", PStr column); ("operator", PStr operator);
         ("value", value)].

Definition plan_no_match : pyval :=
  PDict [("operation", PStr "mean"); ("target_column", PStr "sales");
         ("filters", PList [filter_ "region" "==" (PStr "W")])].

Definition plan_sum_with_chart : pyval :=
  PDict [("operation", PStr "sum"); ("target_column", PStr "sales");
         ("chart_type", PStr "bar"); ("x_axis", PStr "region");
         ("y_axis", PStr "sales")].

(** Two rows, one value of [x]. *)
Definition constant_x : DataFrame :=
  mkFrame [0; 1]%Z
          [("x", SInt64 [1; 1]%Z); ("y", SFloat64 [2; 4]%float)].

Definition plan_regression : list (string * pyval) :=
  [("operation", PStr "regression"); ("x_axis", PStr "x");
   ("y_axis", PStr "y")].

Definition plan_forecast : list (string * pyval) :=
  [("operation", PStr "forecast"); ("time_column", PStr "quarter");
   ("target_column", PStr "sales")].


(** Fourteen months out of order, each with its number times ten as
    target. *)
Definition monthly : DataFrame :=
  mkFrame (map Z.of_nat (seq 0 14))
          [("month", SInt64 [5; 12; 1; 9; 14; 3; 7; 2; 11; 6; 13; 4; 10; 8]%Z);
           ("units", SInt64 [50; 120; 10; 90; 140; 30; 70; 20; 110; 60;
                             130; 40; 100; 80]%Z)].

End Examples.

(* ===================================================================== *)
(** * Request schemas (core/schemas.py) *)
(* ===================================================================== *)

(** The two pydantic models the backend routes decode a plan into, the
    constraints of their fields, and [.dict()]. *)
Module Schemas.

(** [class FilterSchema(BaseModel)]. *)
Record FilterSchema : Type := {
  column : string;
  operator : string;
  value : pyval
}.

(** [class ExecutionPlan(BaseModel)]. *)
Record ExecutionPlan : Type := {
  operation : string;
  target_column : option string;
  filters : list FilterSchema;
  group_by : list string;
  time_column : option string;
  x_axis : option string;
  y_axis : option string;
  chart_type : option string;
  requires_clarification : bool;
  clarification_question : option string
}.

(** A [pattern] of the form [^(a|b|...)$] matches exactly its
    alternatives. *)
Definition matches (alternatives : list string) (s : string) : bool :=
  existsb (String.eqb s) alternatives.

Definition operator_pattern : list string :=
  ["=="; "!="; ">"; "<"; ">="; "<="].

Definition operation_pattern : list string :=
  ["mean"; "sum"; "count"; "min"; "max"; "std";
   "correlation"; "regression"; "forecast"].

Definition chart_type_pattern : list string :=
  ["line"; "bar"; "scatter"; "heatmap"; "box"; "histogram"].

(** The field constraints of [FilterSchema]. *)
Definition filter_accepted (f : FilterSchema) : bool :=
  matches operator_pattern (operator f).

(** The field constraints of [ExecutionPlan]; an absent [chart_type] is
    not matched against its pattern. *)
Definition plan_accepted (p : ExecutionPlan) : bool :=
  matches operation_pattern (operation p)
  && forallb filter_accepted (filters p)
  && match chart_type p with
     | Some c => matches chart_type_pattern c
     | None => true
     end.

Definition optional (o : option string) : pyval :=
  match o with
  | Some s => PStr s
  | None => PNone
  end.

Definition filter_dict (f : FilterSchema) : pyval :=
  PDict [("column", PStr (column f));
         ("operator", PStr (operator f));
         ("value", value f)].

(** The bindings of [plan.dict()]: every field, in declaration order. *)
Definition plan_bindings (p : ExecutionPlan) : list (string * pyval) :=
  [("operation", PStr (operation p));
   ("target_column", optional (target_column p));
   ("filters", PList (map filter_dict (filters p)));
   ("group_by", PList (map PStr (group_by p)));
   ("time_column", optional (time_column p));
   ("x_axis", optional (x_axis p));
   ("y_axis", optional (y_axis p));
   ("chart_type", optional (chart_type p));
   ("requires_clarification", PBool (requires_clarification p));
   ("clarification_question", optional (clarification_question p))].

(** [plan.dict()]. *)
Definition dict (p : ExecutionPlan) : pyval := PDict (plan_bindings p).

(** [routes /analytics/validate]: the verdict of
    [PlanValidator.validate_plan(plan.dict())]. *)
Definition validate_route (p : ExecutionPlan)
  : result PlanValidator.verdict :=
  PlanValidator.validate_plan (dict p).

End Schemas.

(* ===================================================================== *)
(** * The execute route up to the engine (api/analytics.py) *)
(* ===================================================================== *)

(** The steps of the [/analytics/execute] route between the lookup of
    the data set and the call of the engine: validation of
    [request.plan.dict()], then the clarification check. *)
Module AnalyticsRoutes.

(** How the route goes on: the [HTTPException] 400 with the validation
    errors, the clarification answer with the plan's question, or the
    engine called with the plan's dict. *)
Inductive gate : Type :=
| ValidationFailed (validation_errors : list PlanValidator.message)
| NeedsClarification (clarification_question : option string)
| Proceed (plan_dict : pyval).

Definition execute_gate (plan : Schemas.ExecutionPlan) : result gate :=
  (* Validate plan *)
  let plan_dict := Schemas.dict plan in
  validation <- PlanValidator.validate_plan plan_dict ;;
  if negb (PlanValidator.valid validation) then
    Ok (ValidationFailed (PlanValidator.errors validation))
  (* Check for clarification requirement *)
  else if Schemas.requires_clarification plan then
    Ok (NeedsClarification (Schemas.clarification_question plan))
  else Ok (Proceed plan_dict).

End AnalyticsRoutes.

(* ===================================================================== *)
(** * Vocabulary of the further properties *)
(* ===================================================================== *)

Module Shapes.
Import PlanValidator Rules.

(** The keys [validate_plan] reads. *)
Definition validator_keys : list string :=
  ["operation"; "filters"; "group_by"; "chart_type";
   "requires_clarification"; "clarification_question";
   "target_column"; "x_axis"; "y_axis"; "time_column"].

(** A filter with a string [column], a known [operator] and a [value]. *)
Definition well_shaped_filter (f : pyval) : bool :=
  match f with
  | PDict fd =>
      match lookup "column" fd with Some (PStr _) => true | _ => false end
      && match lookup "operator" fd with
         | Some o => member VALID_OPERATORS o
         | None => false
         end
      && match lookup "value" fd with Some _ => true | None => false end
  | _ => false
  end.

(** The message carries the index [k] as its first interpolated value. *)
Definition carries_index (k : nat) (m : message) : Prop :=
  hd_error (holes m) = Some (idx k).

(** The names and dtypes of the columns, in order: what [load_csv] keeps
    as [column_info]. *)
Definition schema_of (d : DataFrame) : list (string * string) :=
  map (fun cs => (fst cs, dtype_name (snd cs))) (data d).

(** Every column holds one cell per row. *)
Definition rectangular (d : DataFrame) : Prop :=
  Forall (fun cs => series_len (snd cs) = len d) (data d).

(** A mask applied after another: the second mask speaks of the rows the
    first one kept. *)
Fixpoint mask_then (m1 m2 : list bool) : list bool :=
  match m1 with
  | [] => []
  | false :: r1 => false :: mask_then r1 m2
  | true :: r1 =>
      match m2 with
      | [] => []
      | b :: r2 => b :: mask_then r1 r2
      end
  end.

(** [d'] holds rows of [d], in order, under the same columns. *)
Definition narrowed (d d' : DataFrame) : Prop :=
  d' = d \/ exists mask, d' = frame_select mask d.

(** The filter step returned a frame. *)
Definition is_ok_frame (r : result DataFrame) : bool :=
  match r with Ok _ => true | Raise _ => false end.

(** The operator is none of the six the filter loop knows. *)
Definition unknown_operator (o : pyval) : bool :=
  negb (eq_str o "==" || eq_str o "!=" || eq_str o ">" || eq_str o "<"
        || eq_str o ">=" || eq_str o "<=").

(** One of the five aggregations over a target column. *)
Definition aggregation_names : list string :=
  ["mean"; "sum"; "min"; "max"; "std"].

(** A regression plan the schema accepts, without its axes. *)
Definition schema_regression_no_axes : Schemas.ExecutionPlan := {|
  Schemas.operation := "regression";
  Schemas.target_column := None;
  Schemas.filters :=
    [{| Schemas.column := "region"; Schemas.operator := "==";
        Schemas.value := PStr "N" |}];
  Schemas.group_by := [];
  Schemas.time_column := None;
  Schemas.x_axis := None;
  Schemas.y_axis := None;
  Schemas.chart_type := Some "scatter";
  Schemas.requires_clarification := false;
  Schemas.clarification_question := None
|}.

End Shapes.

(* ===================================================================== *)
(** * Validator: what [validate_plan] computes *)
(* ===================================================================== *)

Module ValidatorFacts.
Import PlanValidator Rules.

Lemma extend_errors_nil st : extend_errors [] st = st.
Proof. destruct st; unfold extend_errors; simpl. now rewrite app_nil_r. Qed.

Lemma extend_errors_app a b st :
  extend_errors b (extend_errors a st) = extend_errors (a ++ b) st.
Proof. unfold extend_errors; simpl. now rewrite app_assoc. Qed.

Lemma append_error_extend m st : append_error m st = extend_errors [m] st.
Proof. reflexivity. Qed.

Lemma in_set_member S v :
  in_set S v = if hashable v then Ok (member S v) else Raise TypeError.
Proof. destruct v; reflexivity. Qed.

Ltac norm_lists :=
  repeat rewrite append_error_extend;
  repeat rewrite extend_errors_nil;
  repeat rewrite extend_errors_app;
  simpl; try reflexivity.

Lemma check_required_fields_dict d st :
  check_required_fields (PDict d) st =
  if match lookup "operation" d with Some op => hashable op | None => true end
  then Ok (extend_errors (rule_operation d) st)
  else Raise TypeError.
Proof.
  unfold check_required_fields, rule_operation; simpl.
  destruct (lookup "operation" d) as [op|]; simpl; [|reflexivity].
  rewrite in_set_member.
  destruct (hashable op); simpl; [|reflexivity].
  destruct (member VALID_OPERATIONS op); simpl; norm_lists.
Qed.

Lemma _validate_filter_spec f i :
  _validate_filter f i =
  if filter_operator_hashable f then Ok (rule_filter i f) else Raise TypeError.
Proof.
  destruct f; try reflexivity.
  unfold _validate_filter, rule_filter, filter_operator_hashable; simpl.
  destruct (lookup "operator" d) as [o|]; simpl.
  - rewrite in_set_member.
    destruct (lookup "column" d) as [[]|]; simpl;
      destruct (hashable o); simpl; try reflexivity;
      destruct (member VALID_OPERATORS o); simpl;
      destruct (lookup "value" d); reflexivity.
  - destruct (lookup "column" d) as [[]|]; simpl;
      destruct (lookup "value" d); reflexivity.
Qed.

Lemma validate_filters_from_spec fs : forall i st,
  validate_filters_from i fs st =
  if forallb filter_operator_hashable fs
  then Ok (extend_errors (rule_filters_from i fs) st)
  else Raise TypeError.
Proof.
  induction fs as [|f fs IH]; intros i st; simpl.
  - now rewrite extend_errors_nil.
  - rewrite _validate_filter_spec.
    destruct (filter_operator_hashable f); simpl; [|reflexivity].
    rewrite IH. destruct (forallb filter_operator_hashable fs);
      [now rewrite extend_errors_app | reflexivity].
Qed.

Lemma validate_filters_structure_dict d st :
  validate_filters_structure (PDict d) st =
  if match lookup "filters" d with
     | Some (PList fs) => forallb filter_operator_hashable fs
     | _ => true
     end
  then Ok (extend_errors (rule_filters d) st)
  else Raise TypeError.
Proof.
  unfold validate_filters_structure, rule_filters; simpl.
  destruct (lookup "filters" d) as [[]|]; simpl; norm_lists.
  apply validate_filters_from_spec.
Qed.

Lemma validate_group_by_dict d st :
  validate_group_by (PDict d) st = Ok (extend_errors (rule_group_by d) st).
Proof.
  unfold validate_group_by, rule_group_by; simpl.
  destruct (lookup "group_by" d) as [[]|]; simpl; norm_lists.
  destruct (all_str l); simpl; norm_lists.
Qed.

Lemma validate_chart_type_dict d st :
  validate_chart_type (PDict d) st =
  if match lookup "chart_type" d with Some c => hashable c | None => true end
  then Ok (extend_errors (rule_chart_type d) st)
  else Raise TypeError.
Proof.
  unfold validate_chart_type, rule_chart_type; simpl.
  destruct (lookup "chart_type" d) as [c|]; simpl; norm_lists.
  rewrite in_set_member.
  destruct (hashable c); simpl; [|reflexivity].
  destruct (member VALID_CHART_TYPES c); simpl; norm_lists.
Qed.

Lemma truthy_lookup d k :
  truthy (match lookup k d with Some v => v | None => PNone end) = present d k.
Proof. unfold present. now destruct (lookup k d). Qed.

Lemma validate_requires_clarification_dict d st :
  validate_requires_clarification (PDict d) st =
  Ok (extend_errors (rule_clarification d) st).
Proof.
  unfold validate_requires_clarification, rule_clarification.
  cbn [bind get]. rewrite truthy_lookup.
  destruct (present d "requires_clarification"); cbn [andb]; norm_lists.
  cbn [bind get]. rewrite truthy_lookup.
  destruct (present d "clarification_question"); cbn [negb]; norm_lists.
Qed.

Lemma operation_specific_validation_dict d st :
  operation_specific_validation (PDict d) st =
  Ok (Lists (errs st ++ rule_operation_specific d)
            (warns st ++ rule_warnings d)).
Proof.
  unfold operation_specific_validation, rule_operation_specific,
    rule_warnings, operation_is; cbn [bind get].
  rewrite ?truthy_lookup.
  destruct st as [es ws].
  destruct (lookup "operation" d) as [op|].
  - destruct (in_list ["mean"; "sum"; "std"; "min"; "max"] op);
      destruct (eq_str op "correlation"); destruct (eq_str op "regression");
      destruct (eq_str op "forecast");
      destruct (present d "target_column"); destruct (present d "x_axis");
      destruct (present d "y_axis"); destruct (present d "time_column");
      simpl; unfold append_error, append_warning; simpl;
      rewrite ?app_nil_r, <- ?app_assoc; reflexivity.
  - simpl. now rewrite !app_nil_r.
Qed.

(** On a mapping, [validate_plan] raises exactly when an operand of one of
    its set-membership tests is unhashable; otherwise it returns the
    verdict made of every rule's errors, in the order of the rules. *)
Lemma validate_plan_dict d :
  validate_plan (PDict d) =
  if hashable_operands d
  then Ok (Verdict (no_errors (all_rules d)) (all_rules d) (rule_warnings d))
  else Raise TypeError.
Proof.
  unfold validate_plan, hashable_operands.
  rewrite check_required_fields_dict.
  destruct (match lookup "operation" d with
            | Some op => hashable op | None => true end); [|reflexivity].
  simpl bind. rewrite validate_filters_structure_dict.
  destruct (match lookup "filters" d with
            | Some (PList fs) => forallb filter_operator_hashable fs
            | _ => true end); [|reflexivity].
  simpl bind. rewrite validate_group_by_dict. simpl bind.
  rewrite validate_chart_type_dict.
  destruct (match lookup "chart_type" d with
            | Some c => hashable c | None => true end); [|reflexivity].
  simpl bind. rewrite validate_requires_clarification_dict. simpl bind.
  rewrite operation_specific_validation_dict. simpl.
  unfold all_rules, structural_rules.
  rewrite <- !app_assoc. reflexivity.
Qed.

(** A plan that is not a mapping makes [validate_plan] raise: a scalar at
    the first [in] test, a str or a list at the latest at the first
    [.get]. *)
Lemma validate_plan_not_dict plan :
  isinstance_dict plan = false -> exists e, validate_plan plan = Raise e.
Proof.
  intros Hd. unfold validate_plan.
  destruct (check_required_fields plan (Lists [] [])) as [st1|e1] eqn:E1;
    simpl bind; [|eauto].
  destruct (validate_filters_structure plan st1) as [st2|e2]; simpl bind;
    [|eauto].
  destruct (validate_group_by plan st2) as [st3|e3]; simpl bind; [|eauto].
  destruct (validate_chart_type plan st3) as [st4|e4]; simpl bind; [|eauto].
  destruct plan; try discriminate; simpl; eauto.
Qed.

Lemma validate_plan_ok_inv plan v :
  validate_plan plan = Ok v ->
  exists d, plan = PDict d /\ hashable_operands d = true /\
            v = Verdict (no_errors (all_rules d)) (all_rules d)
                        (rule_warnings d).
Proof.
  intros H.
  destruct (isinstance_dict plan) eqn:E.
  - destruct plan; try discriminate. exists d. split; [reflexivity|].
    rewrite validate_plan_dict in H.
    destruct (hashable_operands d); [|discriminate].
    split; congruence.
  - destruct (validate_plan_not_dict plan E) as [e He]. congruence.
Qed.

End ValidatorFacts.

(* ===================================================================== *)
(** * Validator: the properties of the specification *)
(* ===================================================================== *)

Section ValidatorClaims.
Import PlanValidator Rules ValidatorFacts Examples.

Lemma member_hashable S v : member S v = true -> hashable v = true.
Proof. destruct v; simpl; try reflexivity; discriminate. Qed.

Lemma rule_filter_nil_hashable i f :
  rule_filter i f = [] -> filter_operator_hashable f = true.
Proof.
  destruct f; try discriminate. simpl.
  destruct (lookup "operator" d) as [o|]; [|reflexivity].
  destruct (member VALID_OPERATORS o) eqn:E.
  - intros _. now apply member_hashable in E.
  - intros H. apply app_eq_nil in H as [_ H].
    apply app_eq_nil in H as [H _]. discriminate.
Qed.

Lemma rule_filters_from_nil_hashable fs : forall i,
  rule_filters_from i fs = [] -> forallb filter_operator_hashable fs = true.
Proof.
  induction fs as [|f fs IH]; intros i H; simpl in *; [reflexivity|].
  apply app_eq_nil in H as [H1 H2].
  rewrite (rule_filter_nil_hashable _ _ H1). simpl. eauto.
Qed.

(** A plan that passes the structural rules has hashable operands in its
    filters and chart type. *)
Lemma structurally_valid_hashable d op :
  lookup "operation" d = Some op -> hashable op = true ->
  structural_rules d = [] -> hashable_operands d = true.
Proof.
  intros Hop Hh H. unfold structural_rules in H.
  apply app_eq_nil in H as [Hf H].
  apply app_eq_nil in H as [_ H].
  apply app_eq_nil in H as [Hc _].
  unfold hashable_operands. rewrite Hop, Hh. simpl.
  apply andb_true_intro; split.
  - unfold rule_filters in Hf.
    destruct (lookup "filters" d) as [[]|]; try reflexivity.
    eapply rule_filters_from_nil_hashable; eauto.
  - unfold rule_chart_type in Hc.
    destruct (lookup "chart_type" d) as [c|]; [|reflexivity].
    destruct (member VALID_CHART_TYPES c) eqn:E; [|discriminate].
    now apply member_hashable in E.
Qed.

Lemma unknown_operation_is_none d op name :
  lookup "operation" d = Some op ->
  member VALID_OPERATIONS op = false ->
  In name ["correlation"; "regression"; "forecast"] ->
  operation_is d name = false.
Proof.
  intros Hop Hm Hin. unfold operation_is. rewrite Hop.
  destruct op; try reflexivity. simpl.
  destruct (String.eqb_spec s name) as [->|]; [|reflexivity].
  simpl in Hin. destruct Hin as [<-|[<-|[<-|[]]]]; discriminate.
Qed.

(** C1, as stated, fails: a plan that is not a mapping makes
    [validate_plan] raise at its first membership test, instead of
    returning a verdict that reports the malformedness. *)
Lemma validate_plan_raises_on_non_mapping :
  validate_plan plan_not_a_mapping = Raise TypeError.
Proof. reflexivity. Qed.

(** Inside a mapping, a list in the place of [operation] cannot be hashed
    for the set-membership test, and the call raises as well. *)
Example validate_plan_raises_on_unhashable_operation :
  validate_plan plan_unhashable_operation = Raise TypeError.
Proof. reflexivity. Qed.

(** C1, amended: on every plan that is a mapping and whose [operation],
    [chart_type] and filter [operator] values are hashable, [validate_plan]
    returns a verdict; its errors are those of the rules, [valid] says
    whether there are none, and a missing or unknown [operation] gives
    [valid = false] with at least one error. *)
Theorem validate_plan_total_on_mappings (d : list (string * pyval)) :
  hashable_operands d = true ->
  exists v,
    validate_plan (PDict d) = Ok v /\
    errors v = all_rules d /\
    valid v = no_errors (errors v) /\
    ((lookup "operation" d = None \/
      exists op, lookup "operation" d = Some op /\
                 member VALID_OPERATIONS op = false) ->
     valid v = false /\ errors v <> []).
Proof.
  intros Hh. rewrite validate_plan_dict, Hh.
  eexists; split; [reflexivity|]. simpl.
  split; [reflexivity|]. split; [reflexivity|].
  intros Hop. unfold all_rules, rule_operation.
  destruct Hop as [Hop|[op [Hop Hm]]]; rewrite Hop; [|rewrite Hm];
    simpl; split; [reflexivity|discriminate|reflexivity|discriminate].
Qed.

Lemma validate_plan_total_on_mappings_witness :
  hashable_operands plan_unknown_operation = true /\
  exists v,
    validate_plan (PDict plan_unknown_operation) = Ok v /\
    errors v = all_rules plan_unknown_operation /\
    valid v = no_errors (errors v) /\
    ((lookup "operation" plan_unknown_operation = None \/
      exists op, lookup "operation" plan_unknown_operation = Some op /\
                 member VALID_OPERATIONS op = false) ->
     valid v = false /\ errors v <> []).
Proof.
  split; [reflexivity|].
  apply (validate_plan_total_on_mappings plan_unknown_operation).
  reflexivity.
Defined.

(** C2, as stated, fails: with both axes missing the verdict carries one
    error, the combined message, and not one error per axis. *)
Lemma both_axes_missing_single_error :
  exists v,
    validate_plan (PDict plan_correlation_no_axes) = Ok v /\
    errors v =
      [Msg "Operation 'correlation' requires both x_axis and y_axis" []] /\
    List.length (errors v) <> 2%nat.
Proof. eexists. repeat split. simpl. discriminate. Qed.

(** C2, amended: for a [correlation] or [regression] plan that passes the
    structural rules, the verdict carries exactly one error, the combined
    message, when at least one of [x_axis] and [y_axis] is missing or
    empty (whether one or both), and no error when both are there. *)
Theorem axes_requirement_single_error
  (d : list (string * pyval)) (name : string) :
  name = "correlation" \/ name = "regression" ->
  lookup "operation" d = Some (PStr name) ->
  structural_rules d = [] ->
  exists v,
    validate_plan (PDict d) = Ok v /\
    errors v =
      if present d "x_axis" && present d "y_axis" then []
      else [requires_both name].
Proof.
  intros Hname Hop Hs.
  rewrite validate_plan_dict.
  rewrite (structurally_valid_hashable d (PStr name) Hop eq_refl Hs).
  eexists; split; [reflexivity|]. simpl.
  unfold all_rules. rewrite Hs. simpl.
  unfold rule_operation, rule_operation_specific, operation_is.
  rewrite Hop.
  destruct Hname as [-> | ->]; simpl;
    destruct (present d "x_axis" && present d "y_axis"); reflexivity.
Qed.

Lemma axes_requirement_single_error_witness :
  exists v,
    validate_plan (PDict plan_regression_one_axis) = Ok v /\
    errors v =
      if present plan_regression_one_axis "x_axis"
         && present plan_regression_one_axis "y_axis" then []
      else [requires_both "regression"].
Proof.
  apply (axes_requirement_single_error plan_regression_one_axis "regression");
    [right; reflexivity | reflexivity | reflexivity].
Defined.

(** C3, as stated, fails: a filter whose [operator] is a list cannot be
    hashed for the test [not in cls.VALID_OPERATORS], and the call raises
    in the middle of the filter loop.  The error of the unknown operation
    and the error of filter 0 were already in [errors], and the
    [group_by] and [chart_type] checks, which would both fail, never run:
    nothing is returned. *)
Lemma validation_stops_at_unhashable_operator :
  check_required_fields (PDict plan_unhashable_operator) (Lists [] [])
  = Ok (Lists [Msg "Invalid operation '{}'. Must be one of: {}"
                   [PStr "median"]] []) /\
  _validate_filter (PInt 3) 0
  = Ok [Msg "Filter at index {} must be an object" [PInt 0]] /\
  _validate_filter filter_unhashable_operator 1 = Raise TypeError /\
  rule_group_by plan_unhashable_operator
  = [Msg "'group_by' must be an array" []] /\
  rule_chart_type plan_unhashable_operator
  = [Msg "Invalid chart_type '{}'. Must be one of: {}" [PStr "pie"]] /\
  validate_plan (PDict plan_unhashable_operator) = Raise TypeError.
Proof. repeat split. Qed.

(** C3, amended: on every plan that is a mapping and whose [operation],
    [chart_type] and filter [operator] values are hashable,
    [validate_plan] returns a verdict whose errors are those of every
    rule, each in full and in the order of the rules: operation, filters
    (itemised by index), [group_by], [chart_type], clarification,
    operation-specific.  An unknown [operation] contributes its one error
    and the structural rules still contribute all of theirs. *)
Theorem validation_accumulates (d : list (string * pyval)) :
  hashable_operands d = true ->
  exists v,
    validate_plan (PDict d) = Ok v /\
    errors v =
      rule_operation d ++ rule_filters d ++ rule_group_by d ++
      rule_chart_type d ++ rule_clarification d ++
      rule_operation_specific d /\
    (forall op,
        lookup "operation" d = Some op ->
        member VALID_OPERATIONS op = false ->
        errors v =
          Msg "Invalid operation '{}'. Must be one of: {}" [op]
          :: (rule_filters d ++ rule_group_by d ++ rule_chart_type d ++
              rule_clarification d)).
Proof.
  intros Hh. rewrite validate_plan_dict, Hh.
  eexists. split; [reflexivity|]. simpl.
  unfold all_rules, structural_rules.
  split; [now rewrite <- !app_assoc|].
  intros op Hop Hm.
  unfold rule_operation_specific.
  rewrite !(unknown_operation_is_none d op _ Hop Hm) by (simpl; tauto).
  unfold rule_operation. rewrite Hop, Hm. simpl.
  now rewrite <- !app_assoc, app_nil_r.
Qed.

Lemma validation_accumulates_witness :
  exists v,
    validate_plan (PDict plan_unknown_operation) = Ok v /\
    errors v =
      rule_operation plan_unknown_operation ++
      rule_filters plan_unknown_operation ++
      rule_group_by plan_unknown_operation ++
      rule_chart_type plan_unknown_operation ++
      rule_clarification plan_unknown_operation ++
      rule_operation_specific plan_unknown_operation /\
    (forall op,
        lookup "operation" plan_unknown_operation = Some op ->
        member VALID_OPERATIONS op = false ->
        errors v =
          Msg "Invalid operation '{}'. Must be one of: {}" [op]
          :: (rule_filters plan_unknown_operation ++
              rule_group_by plan_unknown_operation ++
              rule_chart_type plan_unknown_operation ++
              rule_clarification plan_unknown_operation)).
Proof.
  apply (validation_accumulates plan_unknown_operation).
  reflexivity.
Defined.

(** The sample plan with an unknown operation and four structural
    defects: every one of them is reported. *)
Example unknown_operation_all_errors :
  validate_plan (PDict plan_unknown_operation) =
  Ok (Verdict false
        [Msg "Invalid operation '{}'. Must be one of: {}" [PStr "median"];
         Msg "Filter at index {} must be an object" [PInt 0];
         Msg "Filter at index {} missing 'operator'" [PInt 1];
         Msg "Filter at index {} missing 'value'" [PInt 1];
         Msg "'group_by' must be an array" [];
         Msg "Invalid chart_type '{}'. Must be one of: {}" [PStr "pie"];
         Msg "When requires_clarification is true, clarification_question must be provided" []]
        []).
Proof. reflexivity. Qed.

End ValidatorClaims.

(* ===================================================================== *)
(** * Engine: masks and filters *)
(* ===================================================================== *)

Module FilterFacts.
Import ExecutionEngine FilterSteps.

Lemma mask_and_comm m1 : forall m2, mask_and m1 m2 = mask_and m2 m1.
Proof.
  induction m1 as [|b1 r1 IH]; intros [|b2 r2]; simpl; try reflexivity.
  now rewrite IH, andb_comm.
Qed.

Lemma select_nil_r {A : Type} (m : list bool) : select m (@nil A) = [].
Proof. destruct m as [|[] m]; reflexivity. Qed.

Lemma map_select {A B : Type} (f : A -> B) (m : list bool) : forall l,
  map f (select m l) = select m (map f l).
Proof.
  induction m as [|b m IH]; intros [|x l]; simpl; try reflexivity.
  destruct b; simpl; now rewrite IH.
Qed.

(** Selecting with a mask and then with a second mask, itself selected by
    the first, is selecting with their conjunction. *)
Lemma select_select {A : Type} (m1 : list bool) : forall m2 (l : list A),
  select (select m1 m2) (select m1 l) = select (mask_and m1 m2) l.
Proof.
  induction m1 as [|b1 r1 IH]; intros m2 l; simpl; [reflexivity|].
  destruct m2 as [|b2 r2]; destruct l as [|x l]; simpl;
    try reflexivity.
  - apply select_nil_r.
  - destruct b1; simpl; [destruct b2|]; simpl; now rewrite IH.
Qed.

Lemma series_select_select m1 m2 s :
  series_select (select m1 m2) (series_select m1 s) =
  series_select (mask_and m1 m2) s.
Proof. destruct s; simpl; now rewrite select_select. Qed.

Lemma frame_select_select m1 m2 d :
  frame_select (select m1 m2) (frame_select m1 d) =
  frame_select (mask_and m1 m2) d.
Proof.
  unfold frame_select; simpl. rewrite select_select. f_equal.
  rewrite map_map. apply map_ext. intros [c s]; simpl.
  now rewrite series_select_select.
Qed.

Lemma find_column_select c m cols :
  find_column c (map (fun cs => (fst cs, series_select m (snd cs))) cols) =
  option_map (series_select m) (find_column c cols).
Proof.
  induction cols as [|[c' s] cols IH]; simpl; [reflexivity|].
  destruct (String.eqb c c'); [reflexivity | exact IH].
Qed.

Lemma is_numeric_dtype_select m s :
  is_numeric_dtype (series_select m s) = is_numeric_dtype s.
Proof. now destruct s. Qed.

Section WithLibraries.
Context {L : Libraries}.

Lemma scalar_compare_eq_ne op val : is_eq_or_ne op = true -> forall l,
  exists bs, scalar_compare op l val = Ok bs /\
             forall m, scalar_compare op (select m l) val = Ok (select m bs).
Proof.
  intros Hop. induction l as [|x l [bs [IH1 IH2]]]; simpl.
  - exists []. split; [reflexivity|]. intros m. now rewrite !select_nil_r.
  - assert (Hx : exists b, cell_compare op x val = Ok b).
    { unfold cell_compare. destruct (checknull x || checknull val); eauto.
      destruct op; try discriminate; eauto. }
    destruct Hx as [b Hb]. rewrite Hb, IH1. simpl.
    exists (b :: bs). split; [reflexivity|].
    intros [|[] m]; simpl; try reflexivity.
    + now rewrite Hb, IH2.
    + apply IH2.
Qed.

(** An [==] or [!=] comparison against a scalar never raises, and its mask
    on a selection of the column is the selection of its mask. *)
Lemma series_cmp_select op s value :
  is_eq_or_ne op = true ->
  hashable value = true ->
  (is_numeric_dtype s = true -> exists v, value = PFloat v) ->
  exists bs, series_cmp op s value = Ok bs /\
             forall m, series_cmp op (series_select m s) value
                       = Ok (select m bs).
Proof.
  intros Hop Hh Hnum.
  destruct s; simpl in *;
    try (destruct (Hnum eq_refl) as [v ->]; eexists; split; [reflexivity|];
         intros m; now rewrite <- ?map_select).
  rewrite Hh. now apply scalar_compare_eq_ne.
Qed.

Lemma apply_filter_found fd c operator value d col :
  lookup "column" fd = Some (PStr c) ->
  lookup "operator" fd = Some operator ->
  lookup "value" fd = Some value ->
  find_column c (data d) = Some col ->
  apply_filter d (PDict fd) =
  bind (convert_value (PStr c) value col)
       (fun v => apply_operator operator col v d).
Proof.
  intros H1 H2 H3 H4. unfold apply_filter. simpl.
  rewrite H1, H2, H3. simpl. rewrite H4. reflexivity.
Qed.

Lemma apply_filter_not_found fd column operator value d :
  lookup "column" fd = Some column ->
  lookup "operator" fd = Some operator ->
  lookup "value" fd = Some value ->
  in_columns d column <> Ok true ->
  (exists e, apply_filter d (PDict fd) = Raise e) /\
  (forall m, exists e, apply_filter (frame_select m d) (PDict fd) = Raise e).
Proof.
  intros H1 H2 H3 H4.
  assert (Hcol : forall m, in_columns (frame_select m d) column
                           = in_columns d column).
  { intros m. destruct column; simpl; try reflexivity.
    rewrite find_column_select. now destruct (find_column s (data d)). }
  unfold apply_filter. simpl. rewrite H1, H2, H3. simpl.
  split; [|intros m; rewrite Hcol];
    (destruct (in_columns d column) as [[]|e]; [congruence | |]); simpl; eauto.
Qed.

(** A filter with [==] or [!=] and a scalar value either raises on a
    frame and on every selection of its rows, or keeps the rows of a mask
    on the frame and, on a selection, the selection of that mask. *)
Lemma apply_filter_select f :
  eq_or_ne_filter f = true -> scalar_valued f = true ->
  forall d,
    ((exists e, apply_filter d f = Raise e) /\
     (forall m, exists e, apply_filter (frame_select m d) f = Raise e)) \/
    (exists bs, apply_filter d f = Ok (frame_select bs d) /\
                forall m, apply_filter (frame_select m d) f
                          = Ok (frame_select (select m bs) (frame_select m d))).
Proof.
  unfold eq_or_ne_filter, scalar_valued. intros Hop Hval d.
  destruct f; try discriminate. rename d0 into fd.
  simpl getitem in *.
  destruct (lookup "operator" fd) as [op|] eqn:E2; [|discriminate].
  destruct (lookup "value" fd) as [value|] eqn:E3; [|discriminate].
  destruct (lookup "column" fd) as [column|] eqn:E1.
  2:{ left. unfold apply_filter. simpl. rewrite E1. simpl. eauto. }
  destruct (in_columns d column) as [[]|e] eqn:Hin.
  2,3: left; apply (apply_filter_not_found fd column op value d E1 E2 E3);
    congruence.
  destruct column; try discriminate. simpl in Hin.
  destruct (find_column s (data d)) as [col|] eqn:Hfind; [|discriminate].
  assert (Hm : forall m, apply_filter (frame_select m d) (PDict fd) =
                         bind (convert_value (PStr s) value
                                             (series_select m col))
                              (fun v => apply_operator op (series_select m col)
                                                       v (frame_select m d))).
  { intros m. apply apply_filter_found; auto.
    simpl. rewrite find_column_select, Hfind. reflexivity. }
  rewrite (apply_filter_found fd s op value d col E1 E2 E3 Hfind).
  assert (Hconv : forall m, convert_value (PStr s) value (series_select m col)
                            = convert_value (PStr s) value col).
  { intros m. unfold convert_value. now rewrite is_numeric_dtype_select. }
  destruct (convert_value (PStr s) value col) as [value'|e] eqn:Hc.
  - assert (Hv : hashable value' = true /\
                 (is_numeric_dtype col = true -> exists v, value' = PFloat v)).
    { unfold convert_value in Hc. destruct (is_numeric_dtype col).
      - destruct (py_float value) as [v|[]]; try discriminate.
        injection Hc as <-. split; eauto.
      - injection Hc as <-. split; [assumption | discriminate]. }
    destruct Hv as [Hh Hn].
    right. unfold apply_operator.
    destruct (eq_str op "==") eqn:Eop.
    + destruct (series_cmp_select OpEq col value' eq_refl Hh Hn)
        as [bs [Hb1 Hb2]].
      exists bs. simpl bind. rewrite Hb1.
      split; [reflexivity|]. intros m. rewrite Hm, Hconv. simpl bind.
      unfold apply_operator. rewrite Eop, Hb2. reflexivity.
    + simpl in Hop. rewrite Hop.
      destruct (series_cmp_select OpNe col value' eq_refl Hh Hn)
        as [bs [Hb1 Hb2]].
      exists bs. simpl bind. rewrite Hb1.
      split; [reflexivity|]. intros m. rewrite Hm, Hconv. simpl bind.
      unfold apply_operator. rewrite Eop, Hop, Hb2. reflexivity.
  - left. split; [simpl; eauto|]. intros m. rewrite Hm, Hconv. simpl; eauto.
Qed.

Lemma apply_two_filters d A B :
  _apply_filters d (PList [A; B]) =
  bind (apply_filter d A) (fun d' => apply_filter d' B).
Proof.
  unfold _apply_filters. simpl.
  destruct (apply_filter d A) as [d'|]; simpl; [|reflexivity].
  now destruct (apply_filter d' B).
Qed.

Lemma eq_ne_filters_commute d A B :
  eq_or_ne_filter A = true -> scalar_valued A = true ->
  eq_or_ne_filter B = true -> scalar_valued B = true ->
  outcome (_apply_filters d (PList [A; B])) =
  outcome (_apply_filters d (PList [B; A])).
Proof.
  intros HA1 HA2 HB1 HB2. rewrite !apply_two_filters.
  destruct (apply_filter_select A HA1 HA2 d)
    as [[[ea Ha1] Ha2] | [ma [Ha1 Ha2]]];
    destruct (apply_filter_select B HB1 HB2 d)
      as [[[eb Hb1] Hb2] | [mb [Hb1 Hb2]]];
    rewrite Ha1, Hb1; simpl; try reflexivity.
  - destruct (Ha2 mb) as [e ->]. reflexivity.
  - destruct (Hb2 ma) as [e ->]. reflexivity.
  - rewrite Ha2, Hb2. simpl.
    now rewrite !frame_select_select, mask_and_comm.
Qed.

End WithLibraries.

End FilterFacts.

(* ===================================================================== *)
(** * Engine: the properties of the specification *)
(* ===================================================================== *)

Section EngineClaims.
Import ExecutionEngine FilterSteps FilterFacts Examples.

(** C4: when the filters of the plan apply and leave no row, [execute_plan]
    returns the failure [Filters resulted in empty dataset]; this is
    decided before the operation is looked at, so the outcome is the same
    whatever the operation and whatever the libraries would compute. *)
Theorem empty_filter_result_rejected {L : Libraries}
  (self : engine) (d : DataFrame) (plan filters : pyval)
  (filtered : DataFrame) :
  df self = Some d ->
  get_default plan "filters" (PList []) = Ok filters ->
  _apply_filters d filters = Ok filtered ->
  len filtered = 0%nat ->
  execute_plan self plan = Failure (Text "Filters resulted in empty dataset")
  /\ success (execute_plan self plan) = false.
Proof.
  intros Hdf Hget Hfil Hlen.
  unfold execute_plan, execute_plan_body.
  rewrite Hdf, Hget. simpl bind. rewrite Hfil. simpl bind.
  unfold empty. rewrite Hlen. simpl. split; reflexivity.
Qed.

Lemma empty_filter_result_rejected_witness :
  execute_plan (L := Sample.libs) loaded plan_no_match
  = Failure (Text "Filters resulted in empty dataset")
  /\ success (execute_plan (L := Sample.libs) loaded plan_no_match) = false.
Proof.
  eapply (@empty_filter_result_rejected Sample.libs loaded Sample.sales
            plan_no_match);
    [reflexivity | reflexivity | vm_compute; reflexivity | reflexivity].
Defined.

(** Conversely, a successful answer was computed on a frame with rows:
    the operation is only ever run on the filtered frame, after the
    emptiness test. *)
Lemma success_comes_from_rows {L : Libraries}
  (self : engine) (plan operation result : pyval) (chart : option string)
  (n : nat) :
  execute_plan self plan = Success operation result chart n ->
  exists d filters filtered,
    df self = Some d /\
    get_default plan "filters" (PList []) = Ok filters /\
    _apply_filters d filters = Ok filtered /\
    empty filtered = false /\
    _execute_operation filtered plan = Ok result /\
    n = len filtered.
Proof.
  unfold execute_plan, execute_plan_body. intros H.
  destruct (df self) as [d|] eqn:Hdf; [|discriminate].
  destruct (get_default plan "filters" (PList [])) as [filters|] eqn:Hget;
    [|discriminate].
  simpl bind in H.
  destruct (_apply_filters d filters) as [filtered|] eqn:Hfil;
    [|discriminate].
  simpl bind in H.
  destruct (empty filtered) eqn:Hemp; [discriminate|].
  destruct (getitem plan "operation") as [op|]; [|discriminate].
  simpl bind in H.
  destruct (_execute_operation filtered plan) as [r|] eqn:Hres;
    [|discriminate].
  simpl bind in H.
  destruct (get plan "chart_type") as [ct|]; [|discriminate].
  simpl bind in H.
  destruct (if truthy ct then _generate_chart filtered plan else Ok None)
    as [c|]; [|discriminate].
  simpl in H. injection H as <- <- <- <-.
  exists d, filters, filtered. repeat split; assumption.
Qed.

(** The aggregations of the sample data set: three sales, 10, 20 and 30. *)
Example mean_sum_count_of_sales :
  execute_plan (L := Sample.libs) loaded
    (PDict [("operation", PStr "mean"); ("target_column", PStr "sales")])
  = Success (PStr "mean") (PFloat 20) None 3 /\
  execute_plan (L := Sample.libs) loaded
    (PDict [("operation", PStr "sum"); ("target_column", PStr "sales")])
  = Success (PStr "sum") (PFloat 60) None 3 /\
  execute_plan (L := Sample.libs) loaded
    (PDict [("operation", PStr "count")])
  = Success (PStr "count") (PInt 3) None 3.
Proof. repeat split; vm_compute; reflexivity. Qed.

(** A filter on a column the frame does not have is reported as such. *)
Example unknown_filter_column :
  execute_plan (L := Sample.libs) loaded
    (PDict [("operation", PStr "count");
            ("filters", PList [filter_ "region" "==" (PStr "N");
                               filter_ "city" "==" (PStr "Oslo")])])
  = Failure (ExecutionFailed
               (ValueError "Column '{}' not found in dataset" [PStr "city"])).
Proof. vm_compute. reflexivity. Qed.

(** C8: when the filters leave rows and the operation returns a result,
    [execute_plan] returns [success] with that result and the row count,
    whatever happens while the chart is drawn; if the chart body raises,
    the chart is [None]. *)
Theorem chart_failure_keeps_success {L : Libraries}
  (self : engine) (d : DataFrame) (plan filters : pyval)
  (filtered : DataFrame) (operation result : pyval) :
  df self = Some d ->
  get_default plan "filters" (PList []) = Ok filters ->
  _apply_filters d filters = Ok filtered ->
  empty filtered = false ->
  getitem plan "operation" = Ok operation ->
  _execute_operation filtered plan = Ok result ->
  exists chart,
    execute_plan self plan
    = Success operation result chart (len filtered) /\
    (forall chart_type e,
        get plan "chart_type" = Ok chart_type ->
        chart_body filtered plan chart_type = Raise e ->
        chart = None).
Proof.
  intros Hdf Hget Hfil Hemp Hop Hres.
  unfold execute_plan, execute_plan_body.
  rewrite Hdf, Hget. simpl bind. rewrite Hfil. simpl bind.
  rewrite Hemp, Hop. simpl bind. rewrite Hres. simpl bind.
  destruct plan; try discriminate. simpl get.
  set (ct := match lookup "chart_type" d0 with
             | Some v => v | None => PNone end).
  simpl bind. unfold _generate_chart. simpl get. fold ct. simpl bind.
  destruct (truthy ct) eqn:Et; simpl.
  - destruct (chart_body filtered (PDict d0) ct) as [image|e0] eqn:Ec; simpl.
    + eexists; split; [reflexivity|].
      intros chart_type e [= <-] Hraise. congruence.
    + eexists; split; [reflexivity|]. reflexivity.
  - eexists; split; [reflexivity|]. reflexivity.
Qed.

Lemma chart_failure_keeps_success_witness :
  exists chart,
    execute_plan (L := Sample.libs_no_chart) loaded plan_sum_with_chart
    = Success (PStr "sum") (PFloat 60) chart 3 /\
    (forall chart_type e,
        get plan_sum_with_chart "chart_type" = Ok chart_type ->
        chart_body (L := Sample.libs_no_chart) Sample.sales
                   plan_sum_with_chart chart_type = Raise e ->
        chart = None).
Proof.
  eapply (@chart_failure_keeps_success Sample.libs_no_chart loaded
            Sample.sales plan_sum_with_chart (PList []) Sample.sales);
    reflexivity.
Defined.

(** With a renderer that fails, the sum is returned without a chart. *)
Example failed_chart_degrades_to_none :
  execute_plan (L := Sample.libs_no_chart) loaded plan_sum_with_chart
  = Success (PStr "sum") (PFloat 60) None 3.
Proof. reflexivity. Qed.

(** C9: two filters that use [==] or [!=] against scalar values, on
    different columns, leave the same frame in either order (and if they
    leave none in one order, they leave none in the other). *)
Theorem filter_order_irrelevant {L : Libraries}
  (d : DataFrame) (A B : pyval) :
  eq_or_ne_filter A = true -> scalar_valued A = true ->
  eq_or_ne_filter B = true -> scalar_valued B = true ->
  on_disjoint_columns A B ->
  outcome (_apply_filters d (PList [A; B])) =
  outcome (_apply_filters d (PList [B; A])).
Proof.
  intros HA1 HA2 HB1 HB2 _. now apply eq_ne_filters_commute.
Qed.

Lemma filter_order_irrelevant_witness :
  outcome (_apply_filters (L := Sample.libs) Sample.sales
             (PList [filter_ "region" "==" (PStr "N");
                     filter_ "quarter" "!=" (PInt 2)])) =
  outcome (_apply_filters (L := Sample.libs) Sample.sales
             (PList [filter_ "quarter" "!=" (PInt 2);
                     filter_ "region" "==" (PStr "N")])).
Proof.
  apply (@filter_order_irrelevant Sample.libs Sample.sales
           (filter_ "region" "==" (PStr "N"))
           (filter_ "quarter" "!=" (PInt 2)));
    try reflexivity.
  intros a b Ha Hb. simpl in Ha, Hb. injection Ha as <-. injection Hb as <-.
  discriminate.
Defined.

(** Both orders keep the two northern sales of the first quarter. *)
Example two_filters_on_sales :
  _apply_filters (L := Sample.libs) Sample.sales
    (PList [filter_ "quarter" "!=" (PInt 2);
            filter_ "region" "==" (PStr "N")])
  = Ok (mkFrame [0; 1]%Z
          [("region", SObject [PStr "N"; PStr "N"]);
           ("quarter", SInt64 [1; 1]%Z);
           ("sales", SFloat64 [10; 20]%float)]).
Proof. vm_compute. reflexivity. Qed.

(** C10: when [read_csv] raises on the source, [load_csv] returns the
    failure with the exception's text and leaves the engine as it was,
    frame and column types; a later [execute_plan] answers as it would
    have before the call. *)
Theorem load_failure_keeps_dataset {L : Libraries}
  (self : engine) (file_path : string) (e : exn) :
  read_csv file_path = Raise e ->
  load_csv self file_path = (self, LoadFailure (LoadFailed e)) /\
  df (fst (load_csv self file_path)) = df self /\
  column_info (fst (load_csv self file_path)) = column_info self /\
  (forall plan,
      execute_plan (fst (load_csv self file_path)) plan
      = execute_plan self plan).
Proof.
  intros H. unfold load_csv. rewrite H. simpl. repeat split.
Qed.

Lemma load_failure_keeps_dataset_witness :
  load_csv (L := Sample.libs) loaded "missing.csv"
  = (loaded, LoadFailure (LoadFailed (LibraryError "No such file or directory")))
  /\ df (fst (load_csv (L := Sample.libs) loaded "missing.csv")) = df loaded
  /\ column_info (fst (load_csv (L := Sample.libs) loaded "missing.csv"))
     = column_info loaded
  /\ (forall plan,
         execute_plan (L := Sample.libs)
           (fst (load_csv (L := Sample.libs) loaded "missing.csv")) plan
         = execute_plan (L := Sample.libs) loaded plan).
Proof.
  apply (@load_failure_keeps_dataset Sample.libs loaded "missing.csv").
  reflexivity.
Defined.

(** A successful load replaces both attributes. *)
Example load_sales :
  loaded = Engine (Some Sample.sales)
             [("region", "object"); ("quarter", "int64");
              ("sales", "float64")].
Proof. reflexivity. Qed.

End EngineClaims.

(* ===================================================================== *)
(** * Engine: sorting, regression and forecast *)
(* ===================================================================== *)

Module SortFacts.
Import SortOrder.















End SortFacts.

Module SeriesFacts.
Import ExecutionEngine.

Lemma lastn_map {A B : Type} (f : A -> B) k l :
  lastn k (map f l) = map f (lastn k l).
Proof.
  unfold lastn. destruct k; [reflexivity|].
  now rewrite length_map, skipn_map.
Qed.

Lemma series_floats_lastn k s :
  series_floats (series_lastn k s) = option_map (lastn k) (series_floats s).
Proof. destruct s; simpl; now rewrite ?lastn_map. Qed.

Lemma series_floats_len s xs :
  series_floats s = Some xs -> series_len s = List.length xs.
Proof.
  destruct s; simpl; intros [= <-]; now rewrite ?length_map.
Qed.

Lemma rev_head_last {A : Type} (xs : list A) (dflt : A) :
  xs <> [] -> exists r, rev xs = last xs dflt :: r.
Proof.
  intros H. destruct (exists_last H) as [l [a ->]].
  rewrite rev_app_distr, last_last. simpl. eauto.
Qed.

Lemma last_as_float_numeric {L : Libraries} s xs :
  series_floats s = Some xs -> xs <> [] ->
  last_as_float s = Ok (last xs 0%float).
Proof.
  intros Hs Hne. unfold last_as_float. rewrite Hs.
  destruct (rev_head_last xs 0%float Hne) as [r ->]. reflexivity.
Qed.

End SeriesFacts.

Section OperationClaims.
Import ExecutionEngine SortOrder SortFacts SeriesFacts Examples.

(** C5, as stated, fails: on a frame whose [x] column holds one distinct
    value, the regression returns a fitted payload (a flat line through
    the mean of [y]), not a failure. *)
Lemma regression_fits_constant_x :
  List.length (nodup Z.eq_dec [1; 1]%Z) = 1%nat /\
  _execute_operation (L := Sample.libs) constant_x (PDict plan_regression)
  = Ok (PDict [("slope", PFloat 0); ("intercept", PFloat 3);
               ("r_squared", PFloat 0);
               ("x_column", PStr "x"); ("y_column", PStr "y")]).
Proof. split; vm_compute; reflexivity. Qed.

(** C5, amended: the regression makes no check of its own on the number
    of distinct x-values.  On a frame that holds both columns its outcome
    is that of the library's fit and score on them: their exception if one
    raises, and otherwise the payload with slope, intercept, r_squared and
    the two column names. *)
Theorem regression_outcome_is_the_fit {L : Libraries}
  (d : DataFrame) (p : list (string * pyval)) (x_col y_col : string)
  (X y : Series) :
  lookup "operation" p = Some (PStr "regression") ->
  lookup "x_axis" p = Some (PStr x_col) ->
  lookup "y_axis" p = Some (PStr y_col) ->
  find_column x_col (data d) = Some X ->
  find_column y_col (data d) = Some y ->
  _execute_operation d (PDict p) =
  (model <- LinearRegression_fit X y ;;
   r_squared <- LinearRegression_score model X y ;;
   Ok (PDict [("slope", PFloat (fst model));
              ("intercept", PFloat (snd model));
              ("r_squared", PFloat r_squared);
              ("x_column", PStr x_col);
              ("y_column", PStr y_col)])).
Proof.
  intros Hop Hx Hy HX HY. unfold _execute_operation. simpl.
  rewrite Hop, Hx, Hy. simpl. rewrite HX, HY. reflexivity.
Qed.

Lemma regression_outcome_is_the_fit_witness :
  _execute_operation (L := Sample.libs) constant_x (PDict plan_regression) =
  (model <- LinearRegression_fit (Libraries := Sample.libs)
              (SInt64 [1; 1]%Z) (SFloat64 [2; 4]%float) ;;
   r_squared <- LinearRegression_score (Libraries := Sample.libs) model
                  (SInt64 [1; 1]%Z) (SFloat64 [2; 4]%float) ;;
   Ok (PDict [("slope", PFloat (fst model));
              ("intercept", PFloat (snd model));
              ("r_squared", PFloat r_squared);
              ("x_column", PStr "x");
              ("y_column", PStr "y")])).
Proof.
  apply (@regression_outcome_is_the_fit Sample.libs constant_x
           plan_regression "x" "y"); reflexivity.
Defined.

(** C6: once the sorted frame yields a non-empty numeric target series,
    the forecast returns a payload.  Its [last_actual] is the last value
    of the series on either path; and when the seasonal model raises, the
    payload is three copies of the mean of the training window, tagged
    [simple_average]. *)
Theorem forecast_falls_back_to_mean {L : Libraries}
  (d : DataFrame) (p : list (string * pyval)) (time_col target_col : pyval)
  (sorted : DataFrame) (values : Series) (xs : list float) :
  lookup "operation" p = Some (PStr "forecast") ->
  lookup "time_column" p = Some time_col ->
  lookup "target_column" p = Some target_col ->
  sort_values d time_col = Ok sorted ->
  df_getitem sorted target_col = Ok values ->
  series_floats values = Some xs ->
  xs <> [] ->
  exists payload,
    _execute_operation d (PDict p) = Ok payload /\
    getitem payload "last_actual" = Ok (PFloat (last xs 0%float)) /\
    (forall e,
        ExponentialSmoothing_forecast
          (series_lastn (Nat.min (List.length xs) 12) values) = Raise e ->
        let m := mean_float64 (lastn (Nat.min (List.length xs) 12) xs) in
        payload =
          PDict [("forecast_values", PList [PFloat m; PFloat m; PFloat m]);
                 ("last_actual", PFloat (last xs 0%float));
                 ("target_column", target_col);
                 ("method", PStr "simple_average")]).
Proof.
  intros Hop Ht Hg Hsort Hget Hfl Hne.
  unfold _execute_operation. simpl.
  rewrite Hop, Ht, Hg. simpl.
  unfold forecast_values_and_train. rewrite Hsort. simpl bind.
  rewrite Hget. simpl bind. cbn [fst snd].
  rewrite (series_floats_len values xs Hfl).
  rewrite (last_as_float_numeric values xs Hfl Hne).
  unfold np_mean. rewrite series_floats_lastn, Hfl. simpl option_map.
  destruct (ExponentialSmoothing_forecast
              (series_lastn (Nat.min (List.length xs) 12) values))
    as [forecast|e0]; simpl.
  - eexists; split; [reflexivity|]. split; [reflexivity|].
    intros e He. discriminate.
  - eexists; split; [reflexivity|]. split; [reflexivity|].
    intros e _. reflexivity.
Qed.

Lemma forecast_falls_back_to_mean_witness :
  exists payload,
    _execute_operation (L := Sample.libs) Sample.sales (PDict plan_forecast)
    = Ok payload /\
    getitem payload "last_actual"
    = Ok (PFloat (last [10; 20; 30]%float 0%float)) /\
    (forall e,
        ExponentialSmoothing_forecast (Libraries := Sample.libs)
          (series_lastn (Nat.min (List.length [10; 20; 30]%float) 12)
                        (SFloat64 [10; 20; 30]%float)) = Raise e ->
        let m := mean_float64 (Libraries := Sample.libs)
                   (lastn (Nat.min (List.length [10; 20; 30]%float) 12)
                          [10; 20; 30]%float) in
        payload =
          PDict [("forecast_values", PList [PFloat m; PFloat m; PFloat m]);
                 ("last_actual", PFloat (last [10; 20; 30]%float 0%float));
                 ("target_column", PStr "sales");
                 ("method", PStr "simple_average")]).
Proof.
  apply (@forecast_falls_back_to_mean Sample.libs Sample.sales plan_forecast
           (PStr "quarter") (PStr "sales") Sample.sales
           (SFloat64 [10; 20; 30]%float) [10; 20; 30]%float);
    try reflexivity.
  discriminate.
Defined.

(** Three points are fewer than two seasons of four: the stand-in model
    refuses them and the mean, 20, is forecast three times. *)
Example forecast_on_three_points :
  _execute_operation (L := Sample.libs) Sample.sales (PDict plan_forecast)
  = Ok (PDict [("forecast_values", PList [PFloat 20; PFloat 20; PFloat 20]);
               ("last_actual", PFloat 30);
               ("target_column", PStr "sales");
               ("method", PStr "simple_average")]).
Proof. vm_compute. reflexivity. Qed.




(** Fourteen months: the two earliest are left out of the training
    window.  The months are distinct, so that every ascending sort,
    NumPy's quicksort included, gives this order. *)
Example forecast_window_of_monthly :
  forecast_values_and_train (L := Sample.libs) monthly
    (PStr "month") (PStr "units")
  = Ok (SInt64 [10; 20; 30; 40; 50; 60; 70; 80; 90; 100; 110; 120; 130;
                140]%Z,
        SInt64 [30; 40; 50; 60; 70; 80; 90; 100; 110; 120; 130; 140]%Z) /\
  forecast_values_and_train (L := Sample.libs_quicksort) monthly
    (PStr "month") (PStr "units")
  = forecast_values_and_train (L := Sample.libs) monthly
      (PStr "month") (PStr "units").
Proof. split; vm_compute; reflexivity. Qed.

End OperationClaims.

(* ===================================================================== *)
(** * Validator: further properties *)
(* ===================================================================== *)

Module ValidatorMore.
Import PlanValidator Rules ValidatorFacts Shapes.

Lemma lookup_other k0 k v d :
  k0 <> k -> lookup k0 ((k, v) :: d) = lookup k0 d.
Proof.
  intros H. simpl. destruct (String.eqb_spec k0 k); [contradiction|reflexivity].
Qed.

Lemma rule_filter_nil_iff i f :
  rule_filter i f = [] <-> well_shaped_filter f = true.
Proof.
  destruct f; simpl; try (split; discriminate).
  destruct (lookup "column" d) as [[]|]; simpl;
    try (split; discriminate);
    destruct (lookup "operator" d) as [o|]; simpl;
    try (split; discriminate);
    destruct (member VALID_OPERATORS o); simpl;
    try (split; discriminate);
    destruct (lookup "value" d); simpl; split; try discriminate; reflexivity.
Qed.

Lemma well_shaped_hashable f :
  well_shaped_filter f = true -> filter_operator_hashable f = true.
Proof.
  intros H. apply rule_filter_nil_iff with (i := 0%nat) in H.
  destruct f; try discriminate. simpl in *.
  destruct (lookup "operator" d) as [o|]; [|reflexivity].
  destruct (member VALID_OPERATORS o) eqn:E.
  - destruct o; simpl in *; try reflexivity; discriminate.
  - apply app_eq_nil in H as [_ H]. apply app_eq_nil in H as [H _].
    discriminate.
Qed.

Lemma rule_filters_from_nil_iff fs : forall i,
  rule_filters_from i fs = [] <-> forallb well_shaped_filter fs = true.
Proof.
  induction fs as [|f fs IH]; intros i; simpl; [tauto|].
  rewrite andb_true_iff, <- IH, <- rule_filter_nil_iff. split.
  - intros H. now apply app_eq_nil in H.
  - intros [-> ->]. reflexivity.
Qed.

Lemma rule_filter_itemised i f :
  (List.length (rule_filter i f) <= 3)%nat /\
  Forall (carries_index i) (rule_filter i f).
Proof.
  unfold carries_index. destruct f; simpl;
    try (split; [lia | repeat constructor]).
  destruct (lookup "column" d) as [[]|];
    destruct (lookup "operator" d) as [o|];
    try destruct (member VALID_OPERATORS o);
    destruct (lookup "value" d); simpl;
    (split; [lia | repeat constructor]).
Qed.

Lemma rule_filters_from_itemised fs : forall i,
  (List.length (rule_filters_from i fs) <= 3 * List.length fs)%nat /\
  Forall (fun m => exists k, (i <= k < i + List.length fs)%nat /\
                             carries_index k m)
         (rule_filters_from i fs).
Proof.
  induction fs as [|f fs IH]; intros i; simpl.
  - split; [lia | constructor].
  - destruct (rule_filter_itemised i f) as [H1 H2].
    destruct (IH (S i)) as [H3 H4]. split.
    + rewrite length_app. lia.
    + apply Forall_app. split.
      * eapply Forall_impl; [|exact H2]. intros m Hm. exists i. split; [lia|auto].
      * eapply Forall_impl; [|exact H4]. intros m [k [Hk Hm]].
        exists k. split; [lia|auto].
Qed.

(** X1: [_validate_filter] returns no error exactly for a dict with a
    string [column], an [operator] among the six and a [value] key, whatever
    the value (a null value included). *)
Theorem filter_accepted_iff (f : pyval) (index : nat) :
  _validate_filter f index = Ok [] <-> well_shaped_filter f = true.
Proof.
  rewrite _validate_filter_spec. split.
  - destruct (filter_operator_hashable f); [|discriminate].
    intros [= H]. now apply rule_filter_nil_iff in H.
  - intros H. rewrite (well_shaped_hashable f H).
    apply rule_filter_nil_iff with (i := index) in H. now rewrite H.
Qed.

(** X2: the errors the filter loop adds are itemised: at most three per
    filter, each carrying, as its first interpolated value, the index of
    a filter of the list. *)
Theorem filter_errors_itemised
  (i : nat) (fs : list pyval) (st st' : lists) :
  validate_filters_from i fs st = Ok st' ->
  exists es,
    errs st' = errs st ++ es /\
    warns st' = warns st /\
    (List.length es <= 3 * List.length fs)%nat /\
    Forall (fun m => exists k, (i <= k < i + List.length fs)%nat /\
                               carries_index k m) es.
Proof.
  rewrite validate_filters_from_spec.
  destruct (forallb filter_operator_hashable fs); [|discriminate].
  intros [= <-]. exists (rule_filters_from i fs).
  destruct (rule_filters_from_itemised fs i) as [H1 H2].
  repeat split; assumption.
Qed.

Definition two_bad_filters : list pyval :=
  [PInt 3; PDict [("column", PInt 1); ("operator", PStr "~")]].

Lemma filter_errors_itemised_witness :
  exists es,
    errs (Lists
            [Msg "Filter at index {} must be an object" [PInt 0];
             Msg "Filter at index {} 'column' must be a string" [PInt 1];
             Msg "Filter at index {} has invalid operator '{}'. Must be one of: {}"
                 [PInt 1; PStr "~"];
             Msg "Filter at index {} missing 'value'" [PInt 1]] [])
    = errs (Lists [] []) ++ es /\
    warns (Lists
            [Msg "Filter at index {} must be an object" [PInt 0];
             Msg "Filter at index {} 'column' must be a string" [PInt 1];
             Msg "Filter at index {} has invalid operator '{}'. Must be one of: {}"
                 [PInt 1; PStr "~"];
             Msg "Filter at index {} missing 'value'" [PInt 1]] [])
    = warns (Lists [] []) /\
    (List.length es <= 3 * List.length two_bad_filters)%nat /\
    Forall (fun m => exists k,
                (0 <= k < 0 + List.length two_bad_filters)%nat /\
                carries_index k m) es.
Proof.
  apply (filter_errors_itemised 0 two_bad_filters (Lists [] [])).
  reflexivity.
Defined.

(** X3: [validate_plan] reads ten keys and ignores every other one: a
    binding under another key does not change its answer. *)
Theorem validate_plan_ignores_unknown_keys
  (k : string) (v : pyval) (d : list (string * pyval)) :
  ~ In k validator_keys ->
  validate_plan (PDict ((k, v) :: d)) = validate_plan (PDict d).
Proof.
  intros Hk.
  assert (Hl : forall k0, In k0 validator_keys ->
                          lookup k0 ((k, v) :: d) = lookup k0 d).
  { intros k0 Hin. apply lookup_other. intros ->. contradiction. }
  rewrite !validate_plan_dict.
  unfold hashable_operands, all_rules, structural_rules, rule_operation,
    rule_filters, rule_group_by, rule_chart_type, rule_clarification,
    rule_operation_specific, rule_warnings, operation_is, present.
  rewrite !Hl by (simpl; tauto). reflexivity.
Qed.

Lemma validate_plan_ignores_unknown_keys_witness :
  validate_plan
    (PDict (("comment", PList [PStr "draft"]) :: Examples.plan_regression))
  = validate_plan (PDict Examples.plan_regression).
Proof.
  apply (validate_plan_ignores_unknown_keys "comment" (PList [PStr "draft"])
           Examples.plan_regression).
  simpl. intros H.
  repeat (destruct H as [H|H]; [discriminate|]). exact H.
Defined.

Lemma member_operations_str op :
  member VALID_OPERATIONS op = true ->
  exists s, op = PStr s /\ In (Some s) VALID_OPERATIONS.
Proof.
  destruct op; simpl; try discriminate.
  intros H. exists s. split; [reflexivity|].
  apply existsb_exists in H as [[t|] [Hin Ht]]; [|discriminate].
  apply String.eqb_eq in Ht. now subst.
Qed.

(** X4: what a verdict with [valid = true] guarantees to the code that
    runs the plan: the plan is a mapping; [operation] is one of the nine
    names; [filters], if given, is a list of well-shaped filters;
    [group_by], if given, is a list of strings; [chart_type], if given, is
    null or one of the six names; a correlation or regression names both
    axes and a forecast names its time and target columns. *)
Theorem valid_plan_guarantees (plan : pyval) (v : verdict) :
  validate_plan plan = Ok v ->
  valid v = true ->
  exists d s,
    plan = PDict d /\
    lookup "operation" d = Some (PStr s) /\
    In (Some s) VALID_OPERATIONS /\
    (forall fs, lookup "filters" d = Some fs ->
                exists l, fs = PList l /\
                          forallb well_shaped_filter l = true) /\
    (forall g, lookup "group_by" d = Some g ->
               exists l, g = PList l /\ all_str l = true) /\
    (forall c, lookup "chart_type" d = Some c ->
               member VALID_CHART_TYPES c = true) /\
    (s = "correlation" \/ s = "regression" ->
     present d "x_axis" = true /\ present d "y_axis" = true) /\
    (s = "forecast" ->
     present d "time_column" = true /\ present d "target_column" = true).
Proof.
  intros H Hv. apply validate_plan_ok_inv in H as [d [-> [_ ->]]].
  simpl in Hv. unfold no_errors in Hv.
  destruct (all_rules d) eqn:Hall; [clear Hv|discriminate].
  unfold all_rules, structural_rules in Hall.
  apply app_eq_nil in Hall as [Hop Hall].
  apply app_eq_nil in Hall as [Hst Hspec].
  apply app_eq_nil in Hst as [Hf Hst].
  apply app_eq_nil in Hst as [Hg Hst].
  apply app_eq_nil in Hst as [Hc _].
  unfold rule_operation in Hop.
  destruct (lookup "operation" d) as [op|] eqn:Eop; [|discriminate].
  destruct (member VALID_OPERATIONS op) eqn:Em; [|discriminate].
  destruct (member_operations_str op Em) as [s [-> Hin]].
  exists d, s. repeat split; try assumption.
  - intros fs Hfs. unfold rule_filters in Hf. rewrite Hfs in Hf.
    destruct fs; try discriminate. exists l. split; [reflexivity|].
    now apply rule_filters_from_nil_iff in Hf.
  - intros g Hgs. unfold rule_group_by in Hg. rewrite Hgs in Hg.
    destruct g; try discriminate. exists l. split; [reflexivity|].
    now destruct (all_str l).
  - intros c Hcs. unfold rule_chart_type in Hc. rewrite Hcs in Hc.
    now destruct (member VALID_CHART_TYPES c).
  - unfold rule_operation_specific, operation_is in Hspec.
    rewrite Eop in Hspec. destruct H as [-> | ->]; simpl in Hspec;
      destruct (present d "x_axis"); simpl in *; try reflexivity;
      discriminate.
  - unfold rule_operation_specific, operation_is in Hspec.
    rewrite Eop in Hspec. destruct H as [-> | ->]; simpl in Hspec;
      destruct (present d "x_axis"); destruct (present d "y_axis");
      simpl in *; try reflexivity; discriminate.
  - unfold rule_operation_specific, operation_is in Hspec.
    rewrite Eop in Hspec. subst s. simpl in Hspec.
    destruct (present d "time_column"); simpl in *;
      [reflexivity | discriminate].
  - unfold rule_operation_specific, operation_is in Hspec.
    rewrite Eop in Hspec. subst s. simpl in Hspec.
    destruct (present d "time_column"); destruct (present d "target_column");
      simpl in *; try reflexivity; discriminate.
Qed.

Definition plan_forecast_filtered : list (string * pyval) :=
  [("operation", PStr "forecast"); ("time_column", PStr "quarter");
   ("target_column", PStr "sales");
   ("filters", PList [Examples.filter_ "region" "==" (PStr "N")]);
   ("chart_type", PNone)].

Lemma valid_plan_guarantees_witness :
  exists d s,
    PDict plan_forecast_filtered = PDict d /\
    lookup "operation" d = Some (PStr s) /\
    In (Some s) VALID_OPERATIONS /\
    (forall fs, lookup "filters" d = Some fs ->
                exists l, fs = PList l /\
                          forallb well_shaped_filter l = true) /\
    (forall g, lookup "group_by" d = Some g ->
               exists l, g = PList l /\ all_str l = true) /\
    (forall c, lookup "chart_type" d = Some c ->
               member VALID_CHART_TYPES c = true) /\
    (s = "correlation" \/ s = "regression" ->
     present d "x_axis" = true /\ present d "y_axis" = true) /\
    (s = "forecast" ->
     present d "time_column" = true /\ present d "target_column" = true).
Proof.
  apply (valid_plan_guarantees (PDict plan_forecast_filtered)
           (Verdict true [] [])); reflexivity.
Defined.

(** X5: warnings are advisory and narrow: a verdict carries at most one
    warning, and it carries one exactly when the operation is one of
    mean, sum, std, min, max and [target_column] is missing or empty. *)
Theorem warning_only_for_aggregation_without_target
  (plan : pyval) (v : verdict) :
  validate_plan plan = Ok v ->
  (List.length (warnings v) <= 1)%nat /\
  (warnings v <> [] <->
   exists d op,
     plan = PDict d /\ lookup "operation" d = Some op /\
     in_list ["mean"; "sum"; "std"; "min"; "max"] op = true /\
     present d "target_column" = false).
Proof.
  intros H. apply validate_plan_ok_inv in H as [d [-> [_ ->]]].
  cbn [warnings]. unfold rule_warnings.
  destruct (lookup "operation" d) as [op|] eqn:Eop.
  - destruct (in_list ["mean"; "sum"; "std"; "min"; "max"] op) eqn:Ein;
      destruct (present d "target_column") eqn:Et;
      cbn [andb negb List.length];
      (split; [lia|]); split; try congruence.
    + intros [d' [op' [[= <-] [Hop [Hin Hp]]]]]. congruence.
    + intros _. exists d, op. auto.
    + intros [d' [op' [[= <-] [Hop [Hin Hp]]]]].
      rewrite Eop in Hop. injection Hop as <-. congruence.
    + intros [d' [op' [[= <-] [Hop [Hin Hp]]]]].
      rewrite Eop in Hop. injection Hop as <-. congruence.
  - cbn [List.length]. split; [lia|]. split; [congruence|].
    intros [d' [op' [[= <-] [Hop _]]]]. congruence.
Qed.

Lemma warning_only_for_aggregation_without_target_witness :
  (List.length
     (warnings (Verdict true []
        [Msg "Operation '{}' typically requires target_column" [PStr "sum"]]))
   <= 1)%nat /\
  (warnings (Verdict true []
        [Msg "Operation '{}' typically requires target_column" [PStr "sum"]])
   <> [] <->
   exists d op,
     PDict [("operation", PStr "sum")] = PDict d /\
     lookup "operation" d = Some op /\
     in_list ["mean"; "sum"; "std"; "min"; "max"] op = true /\
     present d "target_column" = false).
Proof.
  apply (warning_only_for_aggregation_without_target
           (PDict [("operation", PStr "sum")])).
  reflexivity.
Defined.

End ValidatorMore.

(* ===================================================================== *)
(** * Schema and validator together *)
(* ===================================================================== *)

Module SchemaFacts.
Import PlanValidator Rules ValidatorFacts Shapes ValidatorMore.

Lemma operation_pattern_member s :
  member VALID_OPERATIONS (PStr s) = Schemas.matches Schemas.operation_pattern s.
Proof. reflexivity. Qed.

Lemma operator_pattern_member s :
  member VALID_OPERATORS (PStr s) = Schemas.matches Schemas.operator_pattern s.
Proof. reflexivity. Qed.

Lemma chart_type_pattern_member s :
  Schemas.matches Schemas.chart_type_pattern s = true ->
  member VALID_CHART_TYPES (PStr s) = true.
Proof.
  unfold Schemas.matches, member. simpl.
  rewrite !orb_false_r. intros ->. reflexivity.
Qed.

Lemma schema_filters_well_shaped fs :
  forallb Schemas.filter_accepted fs = true ->
  forallb well_shaped_filter (map Schemas.filter_dict fs) = true.
Proof.
  induction fs as [|f fs IH]; simpl; [reflexivity|].
  intros H. apply andb_true_iff in H as [Hf Hfs].
  rewrite (IH Hfs), andb_true_r.
  unfold Schemas.filter_accepted in Hf.
  rewrite <- operator_pattern_member in Hf.
  unfold member in Hf. simpl in Hf. unfold member. simpl.
  now rewrite Hf.
Qed.

Lemma all_str_map_PStr l : all_str (map PStr l) = true.
Proof. induction l; simpl; auto. Qed.

Lemma forallb_impl {A : Type} (f g : A -> bool) l :
  (forall x, f x = true -> g x = true) ->
  forallb f l = true -> forallb g l = true.
Proof.
  intros H. induction l as [|x l IH]; simpl; [reflexivity|].
  intros H0. apply andb_true_iff in H0 as [H1 H2].
  now rewrite (H x H1), (IH H2).
Qed.

Lemma schema_plan_structure_errors (p : Schemas.ExecutionPlan) :
  Schemas.plan_accepted p = true ->
  exists v,
    Schemas.validate_route p = Ok v /\
    errors v = rule_clarification (Schemas.plan_bindings p) ++
               rule_operation_specific (Schemas.plan_bindings p).
Proof.
  unfold Schemas.plan_accepted. intros H.
  apply andb_true_iff in H as [H Hct].
  apply andb_true_iff in H as [Hop Hfs].
  unfold Schemas.validate_route, Schemas.dict.
  rewrite validate_plan_dict.
  assert (Hws := schema_filters_well_shaped _ Hfs).
  assert (Hc : member VALID_CHART_TYPES
                 (Schemas.optional (Schemas.chart_type p)) = true).
  { destruct (Schemas.chart_type p) as [c|]; simpl;
      [now apply chart_type_pattern_member | reflexivity]. }
  assert (Hh : hashable_operands (Schemas.plan_bindings p) = true).
  { unfold hashable_operands. simpl.
    rewrite (forallb_impl _ _ _ well_shaped_hashable Hws).
    now destruct (Schemas.chart_type p). }
  rewrite Hh. eexists. split; [reflexivity|]. cbn [errors].
  unfold all_rules, structural_rules.
  replace (rule_operation (Schemas.plan_bindings p)) with (@nil message).
  2:{ rewrite <- operation_pattern_member in Hop.
      unfold member in Hop. simpl in Hop.
      unfold rule_operation, member. simpl. now rewrite Hop. }
  replace (rule_filters (Schemas.plan_bindings p)) with (@nil message).
  2:{ symmetry. apply (rule_filters_from_nil_iff _ 0%nat) in Hws.
      exact Hws. }
  replace (rule_group_by (Schemas.plan_bindings p)) with (@nil message).
  2:{ change (rule_group_by (Schemas.plan_bindings p))
        with (if all_str (map PStr (Schemas.group_by p)) then @nil message
              else [Msg "All 'group_by' elements must be strings" []]).
      now rewrite all_str_map_PStr. }
  replace (rule_chart_type (Schemas.plan_bindings p)) with (@nil message).
  2:{ change (rule_chart_type (Schemas.plan_bindings p))
        with (if member VALID_CHART_TYPES
                   (Schemas.optional (Schemas.chart_type p))
              then @nil message
              else [Msg "Invalid chart_type '{}'. Must be one of: {}"
                        [Schemas.optional (Schemas.chart_type p)]]).
      now rewrite Hc. }
  reflexivity.
Qed.

(** X6: a plan the [ExecutionPlan] schema accepts never makes the
    validator raise, and passes its rules on [operation], [filters],
    [group_by] and [chart_type]: the errors of the validate route are
    those of the clarification rule and of the operation-specific rule,
    and no others. *)
Theorem schema_plan_passes_structure (p : Schemas.ExecutionPlan) :
  Schemas.plan_accepted p = true ->
  exists v,
    Schemas.validate_route p = Ok v /\
    errors v = rule_clarification (Schemas.plan_bindings p) ++
               rule_operation_specific (Schemas.plan_bindings p).
Proof. apply schema_plan_structure_errors. Qed.

Lemma schema_plan_passes_structure_witness :
  exists v,
    Schemas.validate_route schema_regression_no_axes = Ok v /\
    errors v =
      rule_clarification (Schemas.plan_bindings schema_regression_no_axes) ++
      rule_operation_specific
        (Schemas.plan_bindings schema_regression_no_axes).
Proof.
  apply (schema_plan_passes_structure schema_regression_no_axes).
  reflexivity.
Defined.

(** The schema lets this plan through; the validator rejects it for its
    missing axes. *)
Example schema_accepts_validator_rejects :
  Schemas.plan_accepted schema_regression_no_axes = true /\
  Schemas.validate_route schema_regression_no_axes
  = Ok (Verdict false
          [Msg "Operation 'regression' requires both x_axis and y_axis" []]
          []).
Proof. split; reflexivity. Qed.

End SchemaFacts.

(* ===================================================================== *)
(** * Engine: further properties of the filters *)
(* ===================================================================== *)

Module FilterMore.
Import ExecutionEngine FilterSteps FilterFacts Shapes.

Lemma bind_ok_inv {A B : Type} (m : result A) (k : A -> result B) (b : B) :
  bind m k = Ok b -> exists a, m = Ok a /\ k a = Ok b.
Proof. destruct m as [a|e]; simpl; [eauto | discriminate]. Qed.

Lemma select_all_false {A : Type} (m : list bool) : forall (l : list A),
  forallb negb m = true -> select m l = [].
Proof.
  induction m as [|b m IH]; intros [|x l] H; simpl in *; try reflexivity.
  apply andb_true_iff in H as [Hb Hm]. destruct b; [discriminate|auto].
Qed.

Lemma mask_then_nil m1 : forallb negb (mask_then m1 []) = true.
Proof. induction m1 as [|[] m1 IH]; simpl; auto. Qed.

Lemma select_then {A : Type} (m1 : list bool) : forall m2 (l : list A),
  select m2 (select m1 l) = select (mask_then m1 m2) l.
Proof.
  induction m1 as [|b1 r1 IH]; intros m2 l; simpl.
  - now destruct m2.
  - destruct l as [|x l].
    + destruct b1; [destruct m2|]; simpl; now rewrite ?select_nil_r.
    + destruct b1; simpl.
      * destruct m2 as [|b2 r2]; simpl; [reflexivity|].
        destruct b2; now rewrite IH.
      * apply IH.
Qed.

Lemma frame_select_then m1 m2 d :
  frame_select m2 (frame_select m1 d) = frame_select (mask_then m1 m2) d.
Proof.
  unfold frame_select; simpl. rewrite select_then. f_equal.
  rewrite map_map. apply map_ext. intros [c s]; simpl.
  destruct s; simpl; now rewrite select_then.
Qed.

Lemma select_length {A : Type} (m : list bool) : forall (l : list A),
  (List.length (select m l) <= List.length l)%nat.
Proof.
  induction m as [|b m IH]; intros [|x l]; simpl; try lia.
  specialize (IH l). destruct b; simpl; lia.
Qed.

Lemma schema_of_select m d : schema_of (frame_select m d) = schema_of d.
Proof.
  unfold schema_of, frame_select; simpl. rewrite map_map.
  apply map_ext. intros [c s]; simpl. now destruct s.
Qed.

Lemma narrowed_refl d : narrowed d d.
Proof. unfold narrowed. now left. Qed.

Lemma narrowed_trans d1 d2 d3 :
  narrowed d1 d2 -> narrowed d2 d3 -> narrowed d1 d3.
Proof.
  unfold narrowed.
  intros [->|[m1 ->]] [->|[m2 ->]]; try (now left); try (right; eauto; fail).
  right. exists (mask_then m1 m2). apply frame_select_then.
Qed.

Lemma narrowed_schema d d' : narrowed d d' -> schema_of d' = schema_of d.
Proof. intros [->|[m ->]]; [reflexivity | apply schema_of_select]. Qed.

Lemma narrowed_len d d' : narrowed d d' -> (len d' <= len d)%nat.
Proof.
  intros [->|[m ->]]; [lia|]. unfold len, frame_select; simpl.
  apply select_length.
Qed.

Lemma narrowed_find_column d d' c :
  narrowed d d' -> find_column c (data d) = None ->
  find_column c (data d') = None.
Proof.
  intros [->|[m ->]] H; [assumption|]. unfold frame_select; simpl.
  now rewrite find_column_select, H.
Qed.

Section WithLibraries.
Context {L : Libraries}.

Lemma apply_filter_narrowed d f d' :
  apply_filter d f = Ok d' -> narrowed d d'.
Proof.
  unfold apply_filter, narrowed. intros H.
  apply bind_ok_inv in H as [column [_ H]].
  apply bind_ok_inv in H as [operator [_ H]].
  apply bind_ok_inv in H as [value [_ H]].
  apply bind_ok_inv in H as [present [_ H]].
  destruct present; simpl in H; [|discriminate].
  apply bind_ok_inv in H as [col [_ H]].
  apply bind_ok_inv in H as [value' [_ H]].
  repeat match type of H with
         | (if ?b then _ else _) = _ => destruct b
         end;
    try (apply bind_ok_inv in H as [mask [_ H]]; injection H as <-;
         right; eauto).
  injection H as <-. now left.
Qed.

Lemma apply_filter_loop_narrowed fs : forall d d',
  apply_filter_loop d fs = Ok d' -> narrowed d d'.
Proof.
  induction fs as [|f fs IH]; intros d d' H; simpl in H.
  - injection H as <-. apply narrowed_refl.
  - apply bind_ok_inv in H as [d1 [H1 H2]].
    eapply narrowed_trans; [eapply apply_filter_narrowed|]; eauto.
Qed.

Lemma apply_filter_loop_app fs1 : forall d fs2,
  apply_filter_loop d (fs1 ++ fs2) =
  bind (apply_filter_loop d fs1) (fun d' => apply_filter_loop d' fs2).
Proof.
  induction fs1 as [|f fs1 IH]; intros d fs2; simpl; [reflexivity|].
  destruct (apply_filter d f) as [d1|e]; simpl; [apply IH | reflexivity].
Qed.

Lemma apply_one_filter d f :
  _apply_filters d (PList [f]) = apply_filter d f.
Proof.
  unfold _apply_filters. simpl. now destruct (apply_filter d f).
Qed.

Lemma mask_and_self m : mask_and m m = m.
Proof. induction m as [|[] m IH]; simpl; now rewrite ?IH. Qed.

Lemma _apply_filters_narrowed d filters d' :
  _apply_filters d filters = Ok d' -> narrowed d d'.
Proof.
  unfold _apply_filters. intros H.
  apply bind_ok_inv in H as [fs [_ H]].
  now apply apply_filter_loop_narrowed in H.
Qed.

(** X7: filters only remove rows.  Whatever the filters and their
    operators, the frame [_apply_filters] returns has the columns of the
    frame it was given, under the same names and dtypes and in the same
    order, and holds some of its rows, in their order. *)
Theorem filters_only_remove_rows
  (d : DataFrame) (filters : pyval) (d' : DataFrame) :
  _apply_filters d filters = Ok d' ->
  schema_of d' = schema_of d /\
  (len d' <= len d)%nat /\
  narrowed d d'.
Proof.
  intros H. apply _apply_filters_narrowed in H.
  repeat split; [now apply narrowed_schema | now apply narrowed_len | exact H].
Qed.

(** X8: filters apply in the order of the list, each to what the
    previous ones left: applying a list is applying its first part and
    then the rest to the result, and a failure of the first part is the
    failure of the whole. *)
Theorem filters_compose (d : DataFrame) (fs1 fs2 : list pyval) :
  _apply_filters d (PList (fs1 ++ fs2)) =
  bind (_apply_filters d (PList fs1))
       (fun d' => _apply_filters d' (PList fs2)).
Proof. unfold _apply_filters. simpl. apply apply_filter_loop_app. Qed.

(** X9: a filter on a column the frame does not have fails with the
    [ValueError] that names the column, wherever it stands in the list,
    provided the filters before it apply. *)
Theorem unknown_filter_column_reported
  (d d1 : DataFrame) (pre post : list pyval)
  (fd : list (string * pyval)) (c : string) (operator value : pyval) :
  _apply_filters d (PList pre) = Ok d1 ->
  lookup "column" fd = Some (PStr c) ->
  lookup "operator" fd = Some operator ->
  lookup "value" fd = Some value ->
  find_column c (data d) = None ->
  _apply_filters d (PList (pre ++ PDict fd :: post))
  = Raise (ValueError "Column '{}' not found in dataset" [PStr c]).
Proof.
  intros Hpre Hc Ho Hv Hnone. unfold _apply_filters in *. simpl in *.
  rewrite apply_filter_loop_app, Hpre. simpl.
  apply apply_filter_loop_narrowed in Hpre.
  unfold apply_filter. simpl. rewrite Hc, Ho, Hv. simpl.
  now rewrite (narrowed_find_column d d1 c Hpre Hnone).
Qed.

(** X10: an [==] or [!=] filter against a scalar is idempotent: applying
    it twice in a row gives what applying it once gives, result or
    exception. *)
Theorem eq_ne_filter_idempotent (d : DataFrame) (A : pyval) :
  eq_or_ne_filter A = true -> scalar_valued A = true ->
  _apply_filters d (PList [A; A]) = _apply_filters d (PList [A]).
Proof.
  intros H1 H2. rewrite apply_two_filters, apply_one_filter.
  destruct (apply_filter_select A H1 H2 d)
    as [[[e He] _] | [bs [Hb1 Hb2]]].
  - now rewrite He.
  - rewrite Hb1. simpl. rewrite Hb2.
    now rewrite frame_select_select, mask_and_self.
Qed.

(** X11: two [==]/[!=] filters against scalars act as a conjunction: when
    each applies to the frame on its own, keeping the rows of a mask, the
    two in a list keep the rows both masks keep. *)
Theorem eq_ne_filters_conjoin (d : DataFrame) (A B : pyval) :
  eq_or_ne_filter A = true -> scalar_valued A = true ->
  eq_or_ne_filter B = true -> scalar_valued B = true ->
  is_ok_frame (_apply_filters d (PList [A])) = true ->
  is_ok_frame (_apply_filters d (PList [B])) = true ->
  exists mA mB,
    _apply_filters d (PList [A]) = Ok (frame_select mA d) /\
    _apply_filters d (PList [B]) = Ok (frame_select mB d) /\
    _apply_filters d (PList [A; B]) = Ok (frame_select (mask_and mA mB) d).
Proof.
  rewrite !apply_one_filter.
  intros HA1 HA2 HB1 HB2 HAok HBok. rewrite apply_two_filters.
  destruct (apply_filter_select A HA1 HA2 d)
    as [[[e He] _] | [mA [Ha1 Ha2]]];
    [rewrite He in HAok; discriminate|].
  destruct (apply_filter_select B HB1 HB2 d)
    as [[[e He] _] | [mB [Hb1 Hb2]]];
    [rewrite He in HBok; discriminate|].
  exists mA, mB. rewrite Ha1. simpl. rewrite Hb2.
  now rewrite frame_select_select.
Qed.

End WithLibraries.

End FilterMore.

Module FilterWitnesses.
Import ExecutionEngine FilterSteps FilterFacts Shapes FilterMore Examples.

Definition northern : pyval := filter_ "region" "==" (PStr "N").
Definition not_second_quarter : pyval := filter_ "quarter" "!=" (PInt 2).
Definition in_oslo : list (string * pyval) :=
  [("column", PStr "city"); ("operator", PStr "=="); ("value", PStr "Oslo")].

Lemma filters_only_remove_rows_witness :
  schema_of (frame_select [true; true; false] Sample.sales)
  = schema_of Sample.sales /\
  (len (frame_select [true; true; false] Sample.sales)
   <= len Sample.sales)%nat /\
  narrowed Sample.sales (frame_select [true; true; false] Sample.sales).
Proof.
  apply (@filters_only_remove_rows Sample.libs Sample.sales
           (PList [northern])).
  vm_compute. reflexivity.
Defined.

Lemma unknown_filter_column_reported_witness :
  _apply_filters (L := Sample.libs) Sample.sales
    (PList ([northern] ++ PDict in_oslo :: [not_second_quarter]))
  = Raise (ValueError "Column '{}' not found in dataset" [PStr "city"]).
Proof.
  apply (@unknown_filter_column_reported Sample.libs Sample.sales
           (frame_select [true; true; false] Sample.sales)
           [northern] [not_second_quarter] in_oslo "city"
           (PStr "==") (PStr "Oslo"));
    reflexivity.
Defined.

Lemma eq_ne_filter_idempotent_witness :
  _apply_filters (L := Sample.libs) Sample.sales (PList [northern; northern])
  = _apply_filters (L := Sample.libs) Sample.sales (PList [northern]).
Proof.
  apply (@eq_ne_filter_idempotent Sample.libs Sample.sales northern);
    reflexivity.
Defined.

Lemma eq_ne_filters_conjoin_witness :
  exists mA mB,
    _apply_filters (L := Sample.libs) Sample.sales (PList [northern])
    = Ok (frame_select mA Sample.sales) /\
    _apply_filters (L := Sample.libs) Sample.sales
      (PList [not_second_quarter])
    = Ok (frame_select mB Sample.sales) /\
    _apply_filters (L := Sample.libs) Sample.sales
      (PList [northern; not_second_quarter])
    = Ok (frame_select (mask_and mA mB) Sample.sales).
Proof.
  apply (@eq_ne_filters_conjoin Sample.libs Sample.sales
           northern not_second_quarter); reflexivity.
Defined.

End FilterWitnesses.

(* ===================================================================== *)
(** * Engine: further properties of the operations *)
(* ===================================================================== *)

Module EngineMore.
Import ExecutionEngine FilterSteps FilterFacts Shapes FilterMore SeriesFacts.
Import Rules.

Lemma unknown_operator_eq_str o :
  unknown_operator o = true ->
  eq_str o "==" = false /\ eq_str o "!=" = false /\ eq_str o ">" = false /\
  eq_str o "<" = false /\ eq_str o ">=" = false /\ eq_str o "<=" = false.
Proof.
  unfold unknown_operator. rewrite negb_true_iff, !orb_false_iff. tauto.
Qed.

Lemma not_member_eq_str op name :
  member PlanValidator.VALID_OPERATIONS op = false ->
  In (Some name) PlanValidator.VALID_OPERATIONS ->
  eq_str op name = false.
Proof.
  intros Hm Hin. destruct op; try reflexivity. simpl.
  destruct (String.eqb_spec s name) as [->|]; [|reflexivity].
  simpl in Hin.
  repeat (destruct Hin as [[= <-]|Hin]; [discriminate|]). contradiction.
Qed.

Lemma prefix_b_append p s : prefix_b p (String.append p s) = true.
Proof.
  induction p as [|a p IH]; simpl; [reflexivity|].
  now rewrite Ascii.eqb_refl, IH.
Qed.

Section WithLibraries.
Context {L : Libraries}.

(** X12: a filter whose operator is none of the six is not an error for
    the engine: once its column is found and, on a numeric column, its
    value converts, [_apply_filters] returns the frame unchanged. *)
Theorem unknown_operator_is_ignored
  (d : DataFrame) (fd : list (string * pyval)) (c : string)
  (operator value : pyval) (col : Series) :
  lookup "column" fd = Some (PStr c) ->
  lookup "operator" fd = Some operator ->
  lookup "value" fd = Some value ->
  find_column c (data d) = Some col ->
  unknown_operator operator = true ->
  (is_numeric_dtype col = false \/ exists x, py_float value = Ok x) ->
  _apply_filters d (PList [PDict fd]) = Ok d.
Proof.
  intros Hc Ho Hv Hf Hu Hconv. rewrite apply_one_filter.
  rewrite (apply_filter_found fd c operator value d col Hc Ho Hv Hf).
  destruct (unknown_operator_eq_str operator Hu)
    as [E1 [E2 [E3 [E4 [E5 E6]]]]].
  assert (Hk : forall v, apply_operator operator col v d = Ok d).
  { intros v. unfold apply_operator.
    now rewrite E1, E2, E3, E4, E5, E6. }
  unfold convert_value.
  destruct Hconv as [-> | [x Hx]]; simpl; [apply Hk|].
  destruct (is_numeric_dtype col); [rewrite Hx|]; simpl; apply Hk.
Qed.

(** X13: on a numeric column (integers, floats or booleans), a value that
    [float()] refuses with a [ValueError] or a [TypeError] makes the filter
    fail with the [ValueError] that names the column and the value,
    whatever the operator and whatever filters follow. *)
Theorem numeric_column_rejects_non_number
  (d : DataFrame) (fd : list (string * pyval)) (c : string)
  (operator value : pyval) (col : Series) :
  lookup "column" fd = Some (PStr c) ->
  lookup "operator" fd = Some operator ->
  lookup "value" fd = Some value ->
  find_column c (data d) = Some col ->
  is_numeric_dtype col = true ->
  (py_float value = Raise TypeError \/
   exists template holes, py_float value = Raise (ValueError template holes)) ->
  forall rest,
    _apply_filters d (PList (PDict fd :: rest))
    = Raise (ValueError
               "Cannot compare numeric column '{}' with non-numeric value '{}'"
               [PStr c; value]).
Proof.
  intros Hc Ho Hv Hf Hn Hbad rest.
  unfold _apply_filters. simpl py_iter. simpl bind.
  cbn [apply_filter_loop].
  rewrite (apply_filter_found fd c operator value d col Hc Ho Hv Hf).
  unfold convert_value. rewrite Hn.
  destruct Hbad as [-> | [t [h ->]]]; reflexivity.
Qed.

(** X14: a successful answer reports a row count that is at least 1 and
    at most the number of rows of the loaded frame. *)
Theorem success_row_count_bounds
  (self : engine) (plan operation result : pyval) (chart : option string)
  (n : nat) :
  execute_plan self plan = Success operation result chart n ->
  exists d, df self = Some d /\ (1 <= n <= len d)%nat.
Proof.
  unfold execute_plan, execute_plan_body. intros H.
  destruct (df self) as [d|]; [|discriminate]. exists d.
  split; [reflexivity|].
  destruct (get_default plan "filters" (PList [])) as [filters|];
    [|discriminate].
  simpl bind in H.
  destruct (_apply_filters d filters) as [filtered|] eqn:Hfil;
    [|discriminate].
  simpl bind in H.
  destruct (empty filtered) eqn:Hemp; [discriminate|].
  destruct (getitem plan "operation"); [|discriminate]. simpl bind in H.
  destruct (_execute_operation filtered plan); [|discriminate].
  simpl bind in H.
  destruct (get plan "chart_type") as [ct|]; [|discriminate].
  simpl bind in H.
  destruct (if truthy ct then _generate_chart filtered plan else Ok None);
    [|discriminate].
  simpl in H. injection H as _ _ _ <-.
  apply _apply_filters_narrowed, narrowed_len in Hfil.
  unfold empty in Hemp. apply orb_false_iff in Hemp as [Hz _].
  apply Nat.eqb_neq in Hz. lia.
Qed.

(** X15: [count] without [group_by] answers the number of rows the
    filters left, the same number as [filtered_row_count], and does not
    look at [target_column]. *)
Theorem count_is_filtered_row_count
  (self : engine) (d : DataFrame) (p : list (string * pyval))
  (filters : pyval) (filtered : DataFrame) :
  df self = Some d ->
  lookup "operation" p = Some (PStr "count") ->
  present p "group_by" = false ->
  get_default (PDict p) "filters" (PList []) = Ok filters ->
  _apply_filters d filters = Ok filtered ->
  empty filtered = false ->
  exists chart,
    execute_plan self (PDict p)
    = Success (PStr "count") (PInt (Z.of_nat (len filtered))) chart
              (len filtered).
Proof.
  intros Hdf Hop Hg Hget Hfil Hemp.
  assert (Hres : _execute_operation filtered (PDict p)
                 = Ok (PInt (Z.of_nat (len filtered)))).
  { unfold _execute_operation. simpl. rewrite Hop. simpl.
    unfold present in Hg.
    destruct (lookup "group_by" p) as [g|]; [rewrite Hg|]; reflexivity. }
  unfold execute_plan, execute_plan_body.
  rewrite Hdf, Hget. simpl bind. rewrite Hfil. simpl bind.
  rewrite Hemp. simpl getitem. rewrite Hop. simpl bind.
  rewrite Hres. simpl bind.
  destruct (if truthy match lookup "chart_type" p with
                      | Some v => v | None => PNone end
            then _generate_chart filtered (PDict p) else Ok None)
    as [c|e] eqn:Ec.
  - eexists. reflexivity.
  - exfalso. destruct (truthy _); [|discriminate].
    unfold _generate_chart in Ec. simpl in Ec.
    destruct (negb _); [discriminate|].
    destruct (chart_body filtered (PDict p) _); discriminate.
Qed.

Lemma chart_body_data_uri d plan chart_type image :
  chart_body d plan chart_type = Ok image ->
  prefix_b "data:image/png;base64," image = true.
Proof.
  unfold chart_body. intros H.
  apply bind_ok_inv in H as [drawing [_ H]].
  apply bind_ok_inv in H as [operation [_ H]].
  apply bind_ok_inv in H as [op_str [_ H]].
  apply bind_ok_inv in H as [ct_str [_ H]].
  apply bind_ok_inv in H as [b64 [_ H]].
  injection H as <-. apply (prefix_b_append "data:image/png;base64," b64).
Qed.

(** X16: a chart is returned only when the plan asks for one, and what is
    returned is a PNG data URI: the text starts with
    [data:image/png;base64,]. *)
Theorem chart_is_png_data_uri
  (self : engine) (plan operation result : pyval) (image : string) (n : nat) :
  execute_plan self plan = Success operation result (Some image) n ->
  prefix_b "data:image/png;base64," image = true /\
  exists chart_type,
    get plan "chart_type" = Ok chart_type /\ truthy chart_type = true.
Proof.
  unfold execute_plan, execute_plan_body. intros H.
  destruct (df self) as [d|]; [|discriminate].
  destruct (get_default plan "filters" (PList [])) as [filters|];
    [|discriminate].
  simpl bind in H.
  destruct (_apply_filters d filters) as [filtered|]; [|discriminate].
  simpl bind in H.
  destruct (empty filtered); [discriminate|].
  destruct (getitem plan "operation"); [|discriminate]. simpl bind in H.
  destruct (_execute_operation filtered plan); [|discriminate].
  simpl bind in H.
  destruct (get plan "chart_type") as [ct|] eqn:Ect; [|discriminate].
  simpl bind in H.
  destruct (truthy ct) eqn:Et.
  - unfold _generate_chart in H. rewrite Ect in H. simpl bind in H.
    rewrite Et in H. simpl in H.
    destruct (chart_body filtered plan ct) as [img|] eqn:Eb; simpl in H;
      [|discriminate].
    injection H as _ _ <- _.
    split; [eapply chart_body_data_uri; eauto | eauto].
  - simpl in H. discriminate.
Qed.

(** X17: an operation that is none of the nine names reaches the end of
    the dispatch: with rows left after the filters, [execute_plan] fails
    with [Unknown operation] and the offending value. *)
Theorem unknown_operation_fails_at_dispatch
  (self : engine) (d : DataFrame) (p : list (string * pyval))
  (operation filters : pyval) (filtered : DataFrame) :
  df self = Some d ->
  lookup "operation" p = Some operation ->
  member PlanValidator.VALID_OPERATIONS operation = false ->
  get_default (PDict p) "filters" (PList []) = Ok filters ->
  _apply_filters d filters = Ok filtered ->
  empty filtered = false ->
  execute_plan self (PDict p)
  = Failure (ExecutionFailed
               (ValueError "Unknown operation: {}" [operation])).
Proof.
  intros Hdf Hop Hm Hget Hfil Hemp.
  assert (Hres : _execute_operation filtered (PDict p)
                 = Raise (ValueError "Unknown operation: {}" [operation])).
  { unfold _execute_operation. simpl getitem. rewrite Hop.
    cbn [bind get get_default].
    rewrite !(not_member_eq_str operation _ Hm) by (simpl; tauto).
    reflexivity. }
  unfold execute_plan, execute_plan_body.
  rewrite Hdf, Hget. simpl bind. rewrite Hfil. simpl bind.
  rewrite Hemp. simpl getitem. rewrite Hop. simpl bind.
  now rewrite Hres.
Qed.

(** X18: an aggregation (mean, sum, min, max, std) without [group_by]
    over a target column the frame does not have raises the [KeyError]
    of that column. *)
Theorem aggregation_needs_its_column
  (d : DataFrame) (p : list (string * pyval)) (name c : string) :
  In name aggregation_names ->
  lookup "operation" p = Some (PStr name) ->
  present p "group_by" = false ->
  lookup "target_column" p = Some (PStr c) ->
  find_column c (data d) = None ->
  _execute_operation d (PDict p) = Raise (KeyError (PStr c)).
Proof.
  intros Hin Hop Hg Ht Hf.
  unfold _execute_operation. simpl getitem. rewrite Hop.
  cbn [bind get get_default]. rewrite Ht.
  assert (Hgb : truthy match lookup "group_by" p with
                       | Some v => v | None => PList [] end = false).
  { unfold present in Hg. now destruct (lookup "group_by" p). }
  simpl in Hin.
  destruct Hin as [<-|[<-|[<-|[<-|[<-|[]]]]]]; simpl;
    unfold aggregate; rewrite Hgb; simpl; now rewrite Hf.
Qed.

(** X19: a regression looks its two columns up before it fits anything: a
    missing [x_axis] column raises a [KeyError], and with [x_axis] there a
    missing [y_axis] column raises the [KeyError] of that column. *)
Theorem regression_needs_its_columns
  (d : DataFrame) (p : list (string * pyval)) (x_col y_col : string) :
  lookup "operation" p = Some (PStr "regression") ->
  lookup "x_axis" p = Some (PStr x_col) ->
  lookup "y_axis" p = Some (PStr y_col) ->
  (find_column x_col (data d) = None ->
   exists key, _execute_operation d (PDict p) = Raise (KeyError key)) /\
  (forall X, find_column x_col (data d) = Some X ->
             find_column y_col (data d) = None ->
             _execute_operation d (PDict p) = Raise (KeyError (PStr y_col))).
Proof.
  intros Hop Hx Hy. split.
  - intros Hf. unfold _execute_operation. simpl.
    rewrite Hop, Hx, Hy. simpl. rewrite Hf. simpl. eauto.
  - intros X HX Hf. unfold _execute_operation. simpl.
    rewrite Hop, Hx, Hy. simpl. now rewrite HX, Hf.
Qed.

(** X20: the [method] key tells the two forecast paths apart: on a
    non-empty numeric target series the payload carries
    [method = simple_average] exactly when the seasonal model raised, and
    has no [method] key at all when the model produced the forecast. *)
Theorem method_tag_marks_fallback
  (d : DataFrame) (p : list (string * pyval)) (time_col target_col : pyval)
  (sorted : DataFrame) (values : Series) (xs : list float) :
  lookup "operation" p = Some (PStr "forecast") ->
  lookup "time_column" p = Some time_col ->
  lookup "target_column" p = Some target_col ->
  sort_values d time_col = Ok sorted ->
  df_getitem sorted target_col = Ok values ->
  series_floats values = Some xs ->
  xs <> [] ->
  exists payload,
    _execute_operation d (PDict p) = Ok payload /\
    ((exists e,
         ExponentialSmoothing_forecast
           (series_lastn (Nat.min (List.length xs) 12) values) = Raise e) <->
     getitem payload "method" = Ok (PStr "simple_average")) /\
    ((exists forecast,
         ExponentialSmoothing_forecast
           (series_lastn (Nat.min (List.length xs) 12) values) = Ok forecast) <->
     getitem payload "method" = Raise (KeyError (PStr "method"))).
Proof.
  intros Hop Ht Hg Hsort Hget Hfl Hne.
  unfold _execute_operation. simpl.
  rewrite Hop, Ht, Hg. simpl.
  unfold forecast_values_and_train. rewrite Hsort. simpl bind.
  rewrite Hget. simpl bind. cbn [fst snd].
  rewrite (series_floats_len values xs Hfl).
  rewrite (last_as_float_numeric values xs Hfl Hne).
  unfold np_mean. rewrite series_floats_lastn, Hfl. simpl option_map.
  destruct (ExponentialSmoothing_forecast
              (series_lastn (Nat.min (List.length xs) 12) values))
    as [forecast|e0]; simpl.
  - eexists; split; [reflexivity|]. simpl. split; split.
    + intros [e He]. discriminate.
    + discriminate.
    + reflexivity.
    + eauto.
  - eexists; split; [reflexivity|]. simpl. split; split.
    + reflexivity.
    + eauto.
    + intros [f Hf]. discriminate.
    + discriminate.
Qed.

Lemma preview_records_length d :
  List.length (preview_records d) = Nat.min 5 (len d).
Proof. unfold preview_records. now rewrite length_map, length_seq. Qed.

Lemma cells_length s : List.length (cells s) = series_len s.
Proof. destruct s; simpl; now rewrite ?length_map. Qed.

Lemma record_keys (cols : list (string * Series)) (i : nat) :
  Forall (fun cs => (i < series_len (snd cs))%nat) cols ->
  map fst (flat_map (fun cs => match nth_error (cells (snd cs)) i with
                               | Some v => [(fst cs, v)]
                               | None => []
                               end) cols)
  = map fst cols.
Proof.
  induction 1 as [|cs cols Hi _ IH]; simpl; [reflexivity|].
  rewrite map_app, IH.
  destruct (nth_error (cells (snd cs)) i) eqn:E; [reflexivity|].
  apply nth_error_None in E. rewrite cells_length in E. lia.
Qed.

(** X21: a successful load replaces the engine's state whatever it was:
    the frame is the one read and the column types are its names and
    dtypes in order.  The response lists the same columns; its preview
    has [min(5, rows)] records and, on a rectangular frame, each record
    has one entry per column, in column order. *)
Theorem load_replaces_state
  (self : engine) (file_path : string) (d : DataFrame) :
  read_csv file_path = Ok d ->
  fst (load_csv self file_path) = Engine (Some d) (schema_of d) /\
  snd (load_csv self file_path)
  = LoadSuccess (columns d) (schema_of d) (len d) (preview_records d) /\
  map fst (schema_of d) = columns d /\
  List.length (preview_records d) = Nat.min 5 (len d) /\
  (rectangular d ->
   Forall (fun record => map fst record = columns d) (preview_records d)).
Proof.
  intros H. unfold load_csv. rewrite H. simpl.
  repeat split.
  - unfold schema_of, columns. rewrite map_map. reflexivity.
  - apply preview_records_length.
  - intros Hrect. unfold preview_records. apply Forall_forall.
    intros record Hin. apply in_map_iff in Hin as [i [<- Hi]].
    apply in_seq in Hi. unfold columns. apply record_keys.
    eapply Forall_impl; [|exact Hrect]. intros cs ->. lia.
Qed.

End WithLibraries.

End EngineMore.

Module EngineWitnesses.
Import ExecutionEngine FilterSteps Shapes EngineMore Examples Rules.

Definition tilde_filter : list (string * pyval) :=
  [("column", PStr "region"); ("operator", PStr "~"); ("value", PStr "N")].

Definition sales_is_null : list (string * pyval) :=
  [("column", PStr "sales"); ("operator", PStr "=="); ("value", PNone)].

Definition plan_count : list (string * pyval) :=
  [("operation", PStr "count"); ("target_column", PStr "profit")].

Definition plan_median : list (string * pyval) :=
  [("operation", PStr "median"); ("target_column", PStr "sales")].

Definition plan_mean_profit : list (string * pyval) :=
  [("operation", PStr "mean"); ("target_column", PStr "profit")].

Definition plan_regression_sales_profit : list (string * pyval) :=
  [("operation", PStr "regression"); ("x_axis", PStr "sales");
   ("y_axis", PStr "profit")].

Lemma unknown_operator_is_ignored_witness :
  _apply_filters (L := Sample.libs) Sample.sales (PList [PDict tilde_filter])
  = Ok Sample.sales.
Proof.
  apply (@unknown_operator_is_ignored Sample.libs Sample.sales tilde_filter
           "region" (PStr "~") (PStr "N")
           (SObject [PStr "N"; PStr "N"; PStr "S"]));
    try reflexivity.
  left. reflexivity.
Defined.

Lemma numeric_column_rejects_non_number_witness :
  _apply_filters (L := Sample.libs) Sample.sales
    (PList [PDict sales_is_null; PDict tilde_filter])
  = Raise (ValueError
             "Cannot compare numeric column '{}' with non-numeric value '{}'"
             [PStr "sales"; PNone]).
Proof.
  apply (fun H =>
           @numeric_column_rejects_non_number Sample.libs Sample.sales
             sales_is_null "sales" (PStr "==") PNone
             (SFloat64 [10; 20; 30]%float)
             eq_refl eq_refl eq_refl eq_refl eq_refl H
             [PDict tilde_filter]).
  left. reflexivity.
Defined.

Lemma success_row_count_bounds_witness :
  exists d, df loaded = Some d /\ (1 <= 3 <= len d)%nat.
Proof.
  apply (@success_row_count_bounds Sample.libs loaded (PDict plan_count)
           (PStr "count") (PInt 3) None 3).
  reflexivity.
Defined.

Lemma count_is_filtered_row_count_witness :
  exists chart,
    execute_plan (L := Sample.libs) loaded (PDict plan_count)
    = Success (PStr "count") (PInt (Z.of_nat (len Sample.sales))) chart
              (len Sample.sales).
Proof.
  apply (@count_is_filtered_row_count Sample.libs loaded Sample.sales
           plan_count (PList []) Sample.sales); reflexivity.
Defined.

Lemma chart_is_png_data_uri_witness :
  prefix_b "data:image/png;base64," "data:image/png;base64,iVBORw0KGgo="
  = true /\
  exists chart_type,
    get plan_sum_with_chart "chart_type" = Ok chart_type /\
    truthy chart_type = true.
Proof.
  apply (@chart_is_png_data_uri Sample.libs loaded plan_sum_with_chart
           (PStr "sum") (PFloat 60) "data:image/png;base64,iVBORw0KGgo=" 3).
  reflexivity.
Defined.

Lemma unknown_operation_fails_at_dispatch_witness :
  execute_plan (L := Sample.libs) loaded (PDict plan_median)
  = Failure (ExecutionFailed
               (ValueError "Unknown operation: {}" [PStr "median"])).
Proof.
  apply (@unknown_operation_fails_at_dispatch Sample.libs loaded Sample.sales
           plan_median (PStr "median") (PList []) Sample.sales);
    reflexivity.
Defined.

Lemma aggregation_needs_its_column_witness :
  _execute_operation (L := Sample.libs) Sample.sales (PDict plan_mean_profit)
  = Raise (KeyError (PStr "profit")).
Proof.
  apply (@aggregation_needs_its_column Sample.libs Sample.sales
           plan_mean_profit "mean" "profit");
    try reflexivity.
  simpl. auto.
Defined.

Lemma regression_needs_its_columns_witness :
  (find_column "sales" (data Sample.sales) = None ->
   exists key,
     _execute_operation (L := Sample.libs) Sample.sales
       (PDict plan_regression_sales_profit)
     = Raise (KeyError key)) /\
  (forall X, find_column "sales" (data Sample.sales) = Some X ->
             find_column "profit" (data Sample.sales) = None ->
             _execute_operation (L := Sample.libs) Sample.sales
               (PDict plan_regression_sales_profit)
             = Raise (KeyError (PStr "profit"))).
Proof.
  apply (@regression_needs_its_columns Sample.libs Sample.sales
           plan_regression_sales_profit "sales" "profit"); reflexivity.
Defined.

Lemma method_tag_marks_fallback_witness :
  exists payload,
    _execute_operation (L := Sample.libs) Sample.sales (PDict plan_forecast)
    = Ok payload /\
    ((exists e,
         ExponentialSmoothing_forecast (Libraries := Sample.libs)
           (series_lastn (Nat.min (List.length [10; 20; 30]%float) 12)
                         (SFloat64 [10; 20; 30]%float)) = Raise e) <->
     getitem payload "method" = Ok (PStr "simple_average")) /\
    ((exists forecast,
         ExponentialSmoothing_forecast (Libraries := Sample.libs)
           (series_lastn (Nat.min (List.length [10; 20; 30]%float) 12)
                         (SFloat64 [10; 20; 30]%float)) = Ok forecast) <->
     getitem payload "method" = Raise (KeyError (PStr "method"))).
Proof.
  apply (@method_tag_marks_fallback Sample.libs Sample.sales plan_forecast
           (PStr "quarter") (PStr "sales") Sample.sales
           (SFloat64 [10; 20; 30]%float) [10; 20; 30]%float);
    try reflexivity.
  discriminate.
Defined.

Lemma load_replaces_state_witness :
  fst (load_csv (L := Sample.libs) loaded "sales.csv")
  = Engine (Some Sample.sales) (schema_of Sample.sales) /\
  snd (load_csv (L := Sample.libs) loaded "sales.csv")
  = LoadSuccess (columns Sample.sales) (schema_of Sample.sales)
                (len Sample.sales) (preview_records Sample.sales) /\
  map fst (schema_of Sample.sales) = columns Sample.sales /\
  List.length (preview_records Sample.sales)
  = Nat.min 5 (len Sample.sales) /\
  (rectangular Sample.sales ->
   Forall (fun record => map fst record = columns Sample.sales)
          (preview_records Sample.sales)).
Proof.
  apply (@load_replaces_state Sample.libs loaded "sales.csv" Sample.sales).
  reflexivity.
Defined.

(** The preview of the sample data set: its three rows, each under the
    three column names. *)
Example preview_of_sales :
  preview_records Sample.sales
  = [[("region", PStr "N"); ("quarter", PInt 1); ("sales", PFloat 10)];
     [("region", PStr "N"); ("quarter", PInt 1); ("sales", PFloat 20)];
     [("region", PStr "S"); ("quarter", PInt 2); ("sales", PFloat 30)]].
Proof. reflexivity. Qed.

End EngineWitnesses.

(* ===================================================================== *)
(** * The execute route and the validator together *)
(* ===================================================================== *)

Module RouteFacts.
Import PlanValidator Rules ValidatorFacts Shapes SchemaFacts AnalyticsRoutes.

(** X22: for a plan the schema accepts, the execute route never raises
    in validation and goes one of three ways: a rejection that carries at
    least one error; a clarification answer, whose question is then
    present and not empty; or the engine, reached only by a plan that is
    valid and does not ask for clarification. *)
Theorem execute_gate_outcomes (p : Schemas.ExecutionPlan) :
  Schemas.plan_accepted p = true ->
  exists g,
    execute_gate p = Ok g /\
    match g with
    | ValidationFailed es => es <> []
    | NeedsClarification q =>
        Schemas.requires_clarification p = true /\
        exists s, q = Some s /\ s <> ""
    | Proceed plan_dict =>
        plan_dict = Schemas.dict p /\
        Schemas.requires_clarification p = false /\
        exists v, validate_plan plan_dict = Ok v /\ valid v = true
    end.
Proof.
  intros Hacc.
  destruct (schema_plan_structure_errors p Hacc) as [v [Hv He]].
  unfold Schemas.validate_route in Hv.
  assert (Hvalid : valid v = no_errors (errors v)).
  { unfold Schemas.dict in Hv. rewrite validate_plan_dict in Hv.
    destruct (hashable_operands (Schemas.plan_bindings p)); [|discriminate].
    injection Hv as <-. reflexivity. }
  unfold execute_gate. rewrite Hv. simpl bind.
  destruct (valid v) eqn:Ev; simpl.
  - destruct (Schemas.requires_clarification p) eqn:Er.
    + eexists. split; [reflexivity|]. split; [reflexivity|].
      rewrite Hvalid in Ev. unfold no_errors in Ev.
      destruct (errors v) eqn:Eerr; [|discriminate].
      symmetry in He. apply app_eq_nil in He as [Hc _].
      unfold rule_clarification, present in Hc. simpl lookup in Hc.
      rewrite Er in Hc. simpl in Hc.
      destruct (Schemas.clarification_question p) as [s|]; simpl in Hc;
        [|discriminate].
      exists s. split; [reflexivity|]. intros ->. discriminate.
    + eexists. split; [reflexivity|]. repeat split. eauto.
  - eexists. split; [reflexivity|].
    rewrite Hvalid in Ev. unfold no_errors in Ev.
    destruct (errors v); [discriminate|]. discriminate.
Qed.

Lemma execute_gate_outcomes_witness :
  exists g,
    execute_gate schema_regression_no_axes = Ok g /\
    match g with
    | ValidationFailed es => es <> []
    | NeedsClarification q =>
        Schemas.requires_clarification schema_regression_no_axes = true /\
        exists s, q = Some s /\ s <> ""
    | Proceed plan_dict =>
        plan_dict = Schemas.dict schema_regression_no_axes /\
        Schemas.requires_clarification schema_regression_no_axes = false /\
        exists v, validate_plan plan_dict = Ok v /\ valid v = true
    end.
Proof.
  apply (execute_gate_outcomes schema_regression_no_axes). reflexivity.
Defined.

End RouteFacts.
